(** * Health-score service: scorer, answer extractor, orchestration pipeline.

    A shallow embedding of the Python sources:
      - services/health_score_service.py
      - services/health_score_orchestration_service.py
      - services/json_processing_service.py
      - services/email_service.py
      - controllers/webhook_controller.py

    Conventions.
    - A parsed JSON document (what [json.loads] / [request.json] hands to the
      code) is a value of [json]; a JSON object is the list of its items in
      stored order.
    - A Python number is its exact value in [Q]. The result of a float
      operation is the binary64 value nearest to the exact result, ties to
      even ([double]); [round(x, 1)] rounds the exact value of [x] to the
      nearest tenth, ties to even, and returns the double nearest to that
      tenth. The model covers finite results: integers that a double holds
      exactly, and doubles below the overflow threshold.
    - Python strings are [string]; [str.lower] lowers the letters A-Z.
    - A Python exception is a value [Raise e] of the error monad [exn]; a
      [try ... except Exception] block is a [match] on that value. *)

From Stdlib Require Import ZArith QArith Qround Qpower Lqa Bool String Ascii List Lia.
From Stdlib Require Import OrdersEx Sorted Permutation.
From stdpp Require Import base gmap strings.
Import ListNotations.

Local Open Scope string_scope.
Local Open Scope list_scope.

(* ===================================================================== *)
(** ** Python values and exceptions                                       *)
(* ===================================================================== *)

Module Py.

Unset Elimination Schemes.
Inductive json : Type :=
| JNull
| JBool (b : bool)
| JNum (q : Q)
| JStr (s : string)
| JArr (items : list json)
| JObj (items : list (string * json)).
Set Elimination Schemes.

(** An exception: the name of its class and the text of [str(e)]. *)
Record pyexc : Type := PyExc { exc_type : string; exc_text : string }.

Definition AttributeError := PyExc "AttributeError" "object has no such attribute".
Definition TypeError := PyExc "TypeError" "unsupported operand".
Definition KeyError := PyExc "KeyError" "missing key".

Inductive exn (A : Type) : Type :=
| Ok (a : A)
| Raise (e : pyexc).
Arguments Ok {A} a.
Arguments Raise {A} e.

Definition bind {A B : Type} (m : exn A) (k : A -> exn B) : exn B :=
  match m with
  | Ok a => k a
  | Raise e => Raise e
  end.

Definition raised {A : Type} (m : exn A) : bool :=
  match m with Ok _ => false | Raise _ => true end.

(** [alist_lookup k d] is [d[k]] for a dict whose items are [d]. *)
Fixpoint alist_lookup {V : Type} (k : string) (d : list (string * V)) : option V :=
  match d with
  | [] => None
  | (k', v) :: rest => if String.eqb k k' then Some v else alist_lookup k rest
  end.

(** [obj.get(k, default)]: only a dict has the method. *)
Definition py_get (obj : json) (k : string) (default : json) : exn json :=
  match obj with
  | JObj items =>
      Ok (match alist_lookup k items with Some v => v | None => default end)
  | _ => Raise AttributeError
  end.

(** [obj[k]] for a string key. *)
Definition py_getitem (obj : json) (k : string) : exn json :=
  match obj with
  | JObj items =>
      match alist_lookup k items with Some v => Ok v | None => Raise KeyError end
  | _ => Raise TypeError
  end.

(** Numeric reading of a value under Python's [==] ([True == 1]). *)
Definition py_num (v : json) : option Q :=
  match v with
  | JBool true => Some 1%Q
  | JBool false => Some 0%Q
  | JNum q => Some q
  | _ => None
  end.

(** [a == b] on scalars. *)
Definition py_eqb (a b : json) : bool :=
  match a, b with
  | JNull, JNull => true
  | JStr s, JStr t => String.eqb s t
  | _, _ =>
      match py_num a, py_num b with
      | Some x, Some y => Qeq_bool x y
      | _, _ => false
      end
  end.

Definition py_hashable (v : json) : bool :=
  match v with
  | JArr _ | JObj _ => false
  | _ => true
  end.

(** [bool(v)]. *)
Definition py_truthy (v : json) : bool :=
  match v with
  | JNull => false
  | JBool b => b
  | JNum q => negb (Qeq_bool q 0)
  | JStr s => negb (String.eqb s "")
  | JArr items => match items with [] => false | _ => true end
  | JObj items => match items with [] => false | _ => true end
  end.

Fixpoint chars (s : string) : list json :=
  match s with
  | EmptyString => []
  | String c rest => JStr (String c EmptyString) :: chars rest
  end.

(** The items visited by [for x in v]. *)
Definition py_iter (v : json) : exn (list json) :=
  match v with
  | JArr items => Ok items
  | JObj items => Ok (map (fun kv => JStr (fst kv)) items)
  | JStr s => Ok (chars s)
  | _ => Raise TypeError
  end.

(** A dict built by the program: items in insertion order, keys hashable. *)
Definition pydict : Type := list (json * json).

Fixpoint dict_lookup (d : pydict) (k : json) : option json :=
  match d with
  | [] => None
  | (k', v) :: rest => if py_eqb k' k then Some v else dict_lookup rest k
  end.

Fixpoint dict_store (d : pydict) (k v : json) : pydict :=
  match d with
  | [] => [(k, v)]
  | (k', v') :: rest =>
      if py_eqb k' k then (k', v) :: rest else (k', v') :: dict_store rest k v
  end.

(** [d[k] = v]. *)
Definition dict_setitem (d : pydict) (k v : json) : exn pydict :=
  if py_hashable k then Ok (dict_store d k v) else Raise TypeError.

(** [k in d]. *)
Definition dict_mem (d : pydict) (k : json) : bool :=
  match dict_lookup d k with Some _ => true | None => false end.

(** *** Strings *)

Definition lower_ascii (c : ascii) : ascii :=
  let n := nat_of_ascii c in
  if (65 <=? n)%nat && (n <=? 90)%nat then ascii_of_nat (n + 32) else c.

Fixpoint lower (s : string) : string :=
  match s with
  | EmptyString => EmptyString
  | String c rest => String (lower_ascii c) (lower rest)
  end.

(** [needle in hay] on strings. *)
Fixpoint contains (needle hay : string) : bool :=
  String.prefix needle hay ||
  match hay with
  | EmptyString => false
  | String _ rest => contains needle rest
  end.

(** *** Numbers *)

(** Nearest integer, ties to the even neighbour. *)
Definition round_half_even (q : Q) : Z :=
  let f := Qfloor q in
  match Qcompare (q - inject_Z f) (1 # 2) with
  | Lt => f
  | Gt => (f + 1)%Z
  | Eq => if Z.even f then f else (f + 1)%Z
  end.

(** The [b] with [2^b <= q < 2^(b+1)], for a positive [q]. *)
Definition binade (q : Q) : Z :=
  let k := (Z.log2 (Qnum q) - Z.log2 (Zpos (Qden q)))%Z in
  if Qle_bool (2 ^ k) q then k else (k - 1)%Z.

(** The exponent of the unit in the last place of a double near [q]:
    53 significant bits, subnormal below [2^-1022]. *)
Definition ulp_exponent (q : Q) : Z := Z.max (binade q - 52) (-1074).

Definition nearest_positive (q : Q) : Q :=
  let e := ulp_exponent q in
  (inject_Z (round_half_even (q / 2 ^ e)) * 2 ^ e)%Q.

(** The binary64 value nearest to [q], ties to even. *)
Definition double (q : Q) : Q :=
  match Qcompare q 0 with
  | Eq => 0%Q
  | Gt => nearest_positive q
  | Lt => (- nearest_positive (- q))%Q
  end.

(** [x + y], [x * y] and [x / y] on floats. *)
Definition py_add (x y : Q) : Q := double (x + y).
Definition py_mul (x y : Q) : Q := double (x * y).
Definition py_truediv (x y : Q) : Q := double (x / y).

(** [round(x, 1)]. *)
Definition round1 (x : Q) : Q := double (Qmake (round_half_even (x * 10)) 10).

(** [sum(xs)] for the one or two scores of a pillar: the additions from
    the start value 0, left to right. *)
Definition py_sum (xs : list Q) : Q := fold_left py_add xs 0%Q.

(** *** The interpreter and the operating system

    What the code calls but does not define: [str()] on a value, the [json]
    module, [os.path.exists] and [os.getenv]. *)
Record runtime : Type := Runtime {
  py_str : json -> string;
  json_dumps : json -> string;
  json_loads : string -> exn json;
  path_exists : string -> bool;
  getenv : string -> option string;
  read_bytes : string -> exn string;
  b64encode : string -> string;
  basename : string -> string;
  utc_today : string
}.

(** [needle in container] for a string [needle]. *)
Definition py_in (needle : string) (container : json) : exn bool :=
  match container with
  | JObj items =>
      Ok (match alist_lookup needle items with Some _ => true | None => false end)
  | JArr items => Ok (existsb (fun x => py_eqb x (JStr needle)) items)
  | JStr s => Ok (contains needle s)
  | _ => Raise TypeError
  end.

End Py.

Import Py.

(** The error monad uses stdpp's [x ← m; k] notation. *)
#[global] Instance exn_ret : MRet exn := fun A a => Ok a.
#[global] Instance exn_bind : MBind exn := fun A B k m => bind m k.

(* ===================================================================== *)
(** ** models/pillar_scores.py                                            *)
(* ===================================================================== *)

Record PillarScores : Type := mkPillarScores {
  muscles_and_visceral_fat : Q;
  cardio_vascular : Q;
  sleep : Q;
  cognitive : Q;
  metabolic : Q;
  emotional : Q;
  overall : Q
}.

(* ===================================================================== *)
(** ** services/health_score_service.py                                   *)
(* ===================================================================== *)

Module HealthScoreService.

(** [self._lookups]: question identifier -> items (answer text, sub-score)
    of the per-identifier mapping, in stored order. *)
Abbreviation lookup_table := (gmap string (list (string * Q))).

Definition _pillar1 : list string :=
  [ "aa24a4d2-b1f2-408b-9d4a-4be80ec7508d";   (* Waist Circumference *)
    "9c968d6d-e21b-448a-b8fb-30056f76ffff" ]. (* Waist-Hip Ratio *)

Definition _pillar2 : list string :=
  [ "27181fef-736e-4bee-ad31-7d8e983d61b3";   (* Blood Pressure (Systolic) *)
    "ceb0b561-1793-43f1-9c76-11cc3964e48a" ]. (* Blood Pressure (Diastolic) *)

Definition _pillar3 : list string :=
  [ "ccc73a31-d4f8-4856-8ebb-27647ff39a97";   (* Sleep Duration *)
    "50b96cb1-243e-454b-aa01-0e8990fc507d" ]. (* Sleep Quality *)

Definition _pillar4 : list string :=
  [ "c714f3fd-a4ff-449b-9946-7badbdc59e03";   (* Memory function score *)
    "15045302-e327-4069-bc9d-d0c0ab3cfaaa" ]. (* Noticed memory changes *)

Definition _pillar5 : list string :=
  [ "f9a247fc-e8d3-4bd8-b7e1-ae54f6766993" ]. (* Protein intake *)

Definition _pillar6 : list string :=
  [ "2c99731f-7ee5-4181-82b5-48a4d876df59" ]. (* Sense of purpose *)

(** *** [_extract_answers] *)

(** The [if/elif/else] on the type tag. *)
Definition answer_value (rt : runtime) (answer answer_type : json) : exn json :=
  if py_eqb answer_type (JStr "choice") then
    choice ← py_get answer "choice" (JObj []);
    py_get choice "label" (JStr "")
  else if py_eqb answer_type (JStr "text") then
    py_get answer "text" (JStr "")
  else if py_eqb answer_type (JStr "number") then
    number ← py_get answer "number" (JNum 0);
    Ok (JStr (py_str rt number))
  else
    Ok (JStr "").

(** The [for answer in answers] loop. *)
Fixpoint extract_loop (rt : runtime) (answers : list json) (answer_map : pydict)
  : exn pydict :=
  match answers with
  | [] => Ok answer_map
  | answer :: rest =>
      field ← py_get answer "field" (JObj []);
      field_ref ← py_get field "ref" (JStr "");
      answer_type ← py_get answer "type" (JStr "");
      value ← answer_value rt answer answer_type;
      answer_map' ← dict_setitem answer_map field_ref value;
      extract_loop rt rest answer_map'
  end.

(** The body of the [try] block. *)
Definition extract_answers_try (rt : runtime) (payload : json) : exn pydict :=
  form_response ← py_get payload "form_response" (JObj []);
  answers ← py_get form_response "answers" (JArr []);
  items ← py_iter answers;
  extract_loop rt items [].

Definition _extract_answers (rt : runtime) (payload : json) : pydict :=
  match extract_answers_try rt payload with
  | Ok answer_map => answer_map
  | Raise _ => []               (* except Exception: return {} *)
  end.

(** *** [_calculate_pillar_score] *)

(** [answer in self._lookups[uuid]]: hashing a list or a dict raises, a
    number, a boolean or [None] is never a key of a JSON object. *)
Definition exact_member (answer : json) (mapping : list (string * Q)) : exn bool :=
  match answer with
  | JStr a => Ok (match alist_lookup a mapping with Some _ => true | None => false end)
  | JArr _ | JObj _ => Raise TypeError
  | _ => Ok false
  end.

(** [self._lookups[uuid][key]]. *)
Definition mapping_getitem (mapping : list (string * Q)) (key : json) : exn Q :=
  match key with
  | JStr k =>
      match alist_lookup k mapping with Some v => Ok v | None => Raise KeyError end
  | _ => Raise KeyError
  end.

(** [answer.lower()]. *)
Definition py_lower (v : json) : exn string :=
  match v with
  | JStr s => Ok (lower s)
  | _ => Raise AttributeError
  end.

(** The [for key in self._lookups[uuid].keys()] loop with its [break];
    the result is the final [best_match]. *)
Fixpoint find_best_match (answer : json) (keys : list string) : exn (option string) :=
  match keys with
  | [] => Ok None
  | key :: rest =>
      a ← py_lower answer;
      if contains a (lower key) || contains (lower key) a
      then Ok (Some key)
      else find_best_match answer rest
  end.

(** The two-stage lookup of one answer: [Some v] when [v] is appended to
    [scores], [None] when the question contributes nothing. *)
Definition resolve_answer (answer : json) (mapping : list (string * Q))
  : exn (option Q) :=
  hit ← exact_member answer mapping;
  if hit : bool then
    v ← mapping_getitem mapping answer; Ok (Some v)
  else
    best_match ← find_best_match answer (map fst mapping);
    match best_match with
    | Some key =>
        if py_truthy (JStr key)                       (* if best_match: *)
        then v ← mapping_getitem mapping (JStr key); Ok (Some v)
        else Ok None
    | None => Ok None
    end.

(** The body of [for uuid in pillar_uuids]. *)
Definition question_score (lookups : lookup_table) (answers : pydict) (uuid : string)
  : exn (option Q) :=
  match dict_lookup answers (JStr uuid), lookups !! uuid with
  | Some answer, Some mapping => resolve_answer answer mapping
  | _, _ => Ok None
  end.

Fixpoint pillar_loop (lookups : lookup_table) (answers : pydict)
    (pillar_uuids : list string) (scores : list Q) : exn (list Q) :=
  match pillar_uuids with
  | [] => Ok scores
  | uuid :: rest =>
      s ← question_score lookups answers uuid;
      pillar_loop lookups answers rest
        (match s with Some v => scores ++ [v] | None => scores end)
  end.

Definition _calculate_pillar_score (lookups : lookup_table) (answers : pydict)
    (pillar_uuids : list string) : exn Q :=
  scores ← pillar_loop lookups answers pillar_uuids [];
  match scores with
  | [] => Ok 0%Q
  | _ => Ok (py_truediv (py_sum scores) (inject_Z (Z.of_nat (length scores))))
  end.

(** *** [_normalize_score] and [calculate] *)

Definition _normalize_score (raw_score : Q) : Q := round1 (py_mul raw_score 20).

(** Lines 54-83 of [calculate]: everything after the answers are extracted. *)
Definition calculate_scores (lookups : lookup_table) (answers : pydict)
  : exn PillarScores :=
  raw_muscles_and_visceral_fat ← _calculate_pillar_score lookups answers _pillar1;
  raw_cardio_vascular ← _calculate_pillar_score lookups answers _pillar2;
  raw_sleep ← _calculate_pillar_score lookups answers _pillar3;
  raw_cognitive ← _calculate_pillar_score lookups answers _pillar4;
  raw_metabolic ← _calculate_pillar_score lookups answers _pillar5;
  raw_emotional ← _calculate_pillar_score lookups answers _pillar6;
  let muscles_and_visceral_fat := _normalize_score raw_muscles_and_visceral_fat in
  let cardio_vascular := _normalize_score raw_cardio_vascular in
  let sleep := _normalize_score raw_sleep in
  let cognitive := _normalize_score raw_cognitive in
  let metabolic := _normalize_score raw_metabolic in
  let emotional := _normalize_score raw_emotional in
  let overall :=
    py_truediv
      (py_add (py_add (py_add (py_add (py_add muscles_and_visceral_fat cardio_vascular)
                                 sleep) cognitive) metabolic) emotional)
      6 in
  Ok (mkPillarScores muscles_and_visceral_fat cardio_vascular sleep
        cognitive metabolic emotional (round1 overall)).

Definition calculate (rt : runtime) (lookups : lookup_table) (typeform_payload : json)
  : exn PillarScores :=
  let answers := _extract_answers rt typeform_payload in
  calculate_scores lookups answers.

End HealthScoreService.

(* ===================================================================== *)
(** ** services/health_score_orchestration_service.py                     *)
(* ===================================================================== *)

Module HealthScoreOrchestrationService.

(** The two renderers the service is constructed with; each returns the
    path of the file it wrote, or raises. *)
Record t : Type := Build {
  generate_chart : PillarScores -> exn string;
  generate_pdf_report : PillarScores -> string -> json -> exn string
}.

(** The dict returned on success. *)
Record result_data : Type := ResultData {
  chart_path : string;
  pdf_report_path : string;
  user_name : json;
  pillar_scores : PillarScores
}.

Definition process_health_scores (self : t) (pillar_scores : PillarScores)
    (user_name : json) : option result_data :=
  match
    chart_path ← generate_chart self pillar_scores;
    pdf_path ← generate_pdf_report self pillar_scores chart_path user_name;
    Ok (ResultData chart_path pdf_path user_name pillar_scores)
  with
  | Ok d => Some d
  | Raise _ => None             (* except Exception: return None *)
  end.

End HealthScoreOrchestrationService.

(* ===================================================================== *)
(** ** services/json_processing_service.py                                *)
(* ===================================================================== *)

Module JsonProcessingService.

Module Orch := HealthScoreOrchestrationService.

Record t : Type := Build {
  lookups : HealthScoreService.lookup_table;     (* health_score_service *)
  orchestration_service : Orch.t
}.

(** The dict returned by [process_json]; [data] is absent on failure. *)
Record result : Type := Result {
  success : bool;
  message : string;
  data : option Orch.result_data
}.

Fixpoint user_name_loop (answers : list json) : exn json :=
  match answers with
  | [] => Ok (JStr "User")
  | answer :: rest =>
      field ← py_get answer "field" (JObj []);
      ref ← py_get field "ref" (JStr "");
      if py_eqb ref (JStr "name_field_ref")
      then py_get answer "text" (JStr "User")
      else user_name_loop rest
  end.

Definition _extract_user_name (payload : json) : json :=
  match
    form_response ← py_get payload "form_response" (JObj []);
    answers ← py_get form_response "answers" (JArr []);
    items ← py_iter answers;
    user_name_loop items
  with
  | Ok name => name
  | Raise _ => JStr "User"
  end.

Definition process_json (rt : runtime) (self : t) (json_content : string) : result :=
  match
    payload ← json_loads rt json_content;
    let user_name := _extract_user_name payload in
    pillar_scores ← HealthScoreService.calculate rt (lookups self) payload;
    let result_data :=
      Orch.process_health_scores (orchestration_service self) pillar_scores user_name in
    match result_data with
    | Some d => Ok (Result true "JSON processed successfully" (Some d))
    | None => Ok (Result false "Failed to process health scores" None)
    end
  with
  | Ok r => r
  | Raise e => Result false ("Error processing JSON: " +:+ exc_text e) None
  end.

End JsonProcessingService.

(* ===================================================================== *)
(** ** services/email_service.py                                          *)
(* ===================================================================== *)

Module EmailService.

(** The message handed to the mail provider. *)
Record mail : Type := Mail {
  from_email : string;
  to_emails : json;
  subject : string;
  plain_text_content : string;
  html_content : option string;
  attachment_name : string;
  attachment_content : string
}.

(** The service: its API key and the provider's [send]. *)
Record t : Type := Build {
  api_key : option string;
  sg_send : mail -> exn Z          (* the response's status code *)
}.

Record result : Type := Result {
  success : bool;
  error : option string;
  status_code : option Z;
  details : option string
}.

Definition str_truthy (s : option string) : bool :=
  match s with
  | Some v => negb (String.eqb v "")
  | None => false
  end.

(** The result paired with the messages passed to the provider, in order. *)
Definition send_email_with_pdf (rt : runtime) (self : t)
    (to_email : json) (subject body pdf_path : string)
    (from_email html_content : option string) : result * list mail :=
  if negb (str_truthy (api_key self)) then
    (Result false (Some "SendGrid API key not configured") None
       (Some "Set SENDGRID_API_KEY environment variable or provide in constructor"),
     [])
  else if negb (path_exists rt pdf_path) then
    (Result false (Some "PDF file not found") None
       (Some ("File not found at path: " +:+ pdf_path)),
     [])
  else
    let sender :=
      if str_truthy from_email then default "" from_email
      else default "no-reply@frontlab.io" (getenv rt "SENDGRID_FROM_EMAIL") in
    match read_bytes rt pdf_path with
    | Raise e => (Result false (Some "Failed to send email") None (Some (exc_text e)), [])
    | Ok file_data =>
        let encoded_file := b64encode rt file_data in
        let message :=
          Mail sender to_email subject body
            (if str_truthy html_content then html_content else None)
            (basename rt pdf_path) encoded_file in
        match sg_send self message with
        | Ok code => (Result true None (Some code) None, [message])
        | Raise e =>
            (Result false (Some "Failed to send email") None (Some (exc_text e)),
             [message])
        end
    end.

End EmailService.

(* ===================================================================== *)
(** ** controllers/webhook_controller.py                                  *)
(* ===================================================================== *)

Module WebhookController.

Record t : Type := Build {
  (** Lines 57-62: pick a fresh file name and dump the payload there;
      the name on success. *)
  save_payload : json -> exn string;
  json_processing_service : JsonProcessingService.t;
  email_service : EmailService.t
}.

(** A response dict together with its HTTP status. *)
Record response : Type := Response {
  success : bool;
  status : Z;
  text : string;                         (* 'message' or 'error' *)
  fileName : option string;
  processingResult : option JsonProcessingService.result;
  emailResult : option EmailService.result
}.

Definition email_ref : string := "39f116ed-5403-407a-b506-c9625e9e6b2a".

Fixpoint email_loop (answers : list json) : exn json :=
  match answers with
  | [] => Ok JNull
  | answer :: rest =>
      ty ← py_get answer "type" JNull;
      hit ←
        (if py_eqb ty (JStr "email") then
           has_field ← py_in "field" answer;
           if has_field : bool then
             field ← py_getitem answer "field";
             ref ← py_get field "ref" JNull;
             Ok (py_eqb ref (JStr email_ref))
           else Ok false
         else Ok false);
      if hit : bool then py_get answer "email" JNull else email_loop rest
  end.

Definition _extract_email_from_payload (payload : json) : json :=
  match
    has_form ← py_in "form_response" payload;
    if has_form : bool then
      form_response ← py_getitem payload "form_response";
      has_answers ← py_in "answers" form_response;
      if has_answers : bool then
        answers ← py_getitem form_response "answers";
        items ← py_iter answers;
        email_loop items
      else Ok JNull
    else Ok JNull
  with
  | Ok v => v
  | Raise _ => JNull
  end.

Definition process_webhook (rt : runtime) (self : t) (payload : json) : response :=
  match save_payload self payload with
  | Raise e => Response false 500 "Failed to process webhook" None None None
  | Ok filename =>
      let json_content := json_dumps rt payload in
      let processing_result :=
        JsonProcessingService.process_json rt (json_processing_service self) json_content in
      Response true 200 "Webhook received, saved, and processed successfully"
        (Some filename) (Some processing_result) None
  end.

(** The response paired with the messages that reached the mail provider. *)
Definition process_webhook_and_email (rt : runtime) (self : t) (payload to_email : json)
  : response * list EmailService.mail :=
  match save_payload self payload with
  | Raise e =>
      (Response false 500 "Failed to process webhook and send email" None None None, [])
  | Ok filename =>
      let json_content := json_dumps rt payload in
      let processing_result :=
        JsonProcessingService.process_json rt (json_processing_service self) json_content in
      let pdf_failed :=
        (Response false 500 "Failed to generate PDF from webhook data" None
           (Some processing_result) None, []) in
      match JsonProcessingService.success processing_result,
            JsonProcessingService.data processing_result with
      | true, Some d =>
          let pdf_path := HealthScoreOrchestrationService.pdf_report_path d in
          let user_name := HealthScoreOrchestrationService.user_name d in
          let recipient_email :=
            if py_truthy to_email then to_email
            else _extract_email_from_payload payload in
          if negb (py_truthy recipient_email) then
            (Response false 400 "No email address provided or found in payload"
               None None None, [])
          else if py_truthy (JStr pdf_path) && path_exists rt pdf_path then
            let subject := "Your Health Score Report - " +:+ utc_today rt in
            let body :=
              (* the line breaks of the source text are left out *)
              "Hello " +:+ py_str rt user_name +:+
              ", Thank you for using our Health Score service. Your health score report is attached. Best regards, The Health Score Team" in
            let '(email_result, sent) :=
              EmailService.send_email_with_pdf rt (email_service self)
                recipient_email subject body pdf_path None None in
            (Response (EmailService.success email_result) 200
               (if EmailService.success email_result
                then "Webhook processed and email sent successfully"
                else "Failed to send email")
               (Some filename) (Some processing_result) (Some email_result),
             sent)
          else pdf_failed
      | _, _ => pdf_failed
      end
  end.

(** The response of the webhook-to-PDF entry point. *)
Record pdf_response : Type := PdfResponse {
  pdf_success : bool;
  pdf_status : Z;
  pdf_text : string;                     (* 'message' or 'error' *)
  pdf_fileName : option string;
  pdf_path : option string;
  pdf_processingResult : option JsonProcessingService.result
}.

Definition process_webhook_to_pdf (rt : runtime) (self : t) (payload : json)
  : pdf_response :=
  match save_payload self payload with
  | Raise e => PdfResponse false 500 "Failed to save webhook data" None None None
  | Ok filename =>
      let json_content := json_dumps rt payload in
      let processing_result :=
        JsonProcessingService.process_json rt (json_processing_service self) json_content in
      let pdf_failed :=
        PdfResponse false 500 "Failed to generate PDF from webhook data" None None
          (Some processing_result) in
      match JsonProcessingService.success processing_result,
            JsonProcessingService.data processing_result with
      | true, Some d =>
          let pdf_path := HealthScoreOrchestrationService.pdf_report_path d in
          if py_truthy (JStr pdf_path) && path_exists rt pdf_path then
            PdfResponse true 200 "Webhook processed and PDF generated successfully"
              (Some filename) (Some pdf_path) None
          else pdf_failed
      | _, _ => pdf_failed
      end
  end.

End WebhookController.

(* ===================================================================== *)
(** ** controllers/file_controller.py                                     *)
(* ===================================================================== *)

Module FileController.

(** The storage directory [self.json_storage_path] as the controller sees
    it: its listing, and per file name of the directory the ISO-format
    creation time with the size, existence, and text. *)
Record storage : Type := Storage {
  listdir : exn (list string);
  stat : string -> exn (string * Z);
  exists_in : string -> bool;
  read_text : string -> exn string
}.

Record t : Type := Build {
  json_storage : storage;
  json_processing_service : JsonProcessingService.t
}.

Record file_info : Type := FileInfo {
  name : string;
  createdAt : string;
  size : Z
}.

(** [s.endswith(suffix)]. *)
Fixpoint endswith (s suffix : string) : bool :=
  String.eqb s suffix ||
  match s with
  | EmptyString => false
  | String _ rest => endswith rest suffix
  end.

(** The [for filename in os.listdir(...)] loop. *)
Fixpoint list_loop (st : storage) (names : list string) (files : list file_info)
  : exn (list file_info) :=
  match names with
  | [] => Ok files
  | filename :: rest =>
      if endswith filename ".json" then
        info ← stat st filename;
        list_loop st rest (files ++ [FileInfo filename (fst info) (snd info)])
      else list_loop st rest files
  end.

(** [a < b] on the sort keys, strings compared character by character. *)
Definition created_before (a b : file_info) : bool :=
  match String_as_OT.compare (createdAt a) (createdAt b) with
  | Lt => true
  | _ => false
  end.

(** [files.sort(key=..., reverse=True)]: the sort is stable, so the result
    is the one of inserting each element, from the last to the first, in
    front of the first element that is not newer. *)
Fixpoint insert_newest_first (x : file_info) (sorted : list file_info) : list file_info :=
  match sorted with
  | [] => [x]
  | y :: rest =>
      if created_before x y then y :: insert_newest_first x rest
      else x :: y :: rest
  end.

Definition sort_newest_first (files : list file_info) : list file_info :=
  fold_right insert_newest_first [] files.

Record listing : Type := Listing {
  list_success : bool;
  list_status : Z;
  files : list file_info
}.

Definition list_files (self : t) : listing :=
  match
    names ← listdir (json_storage self);
    list_loop (json_storage self) names []
  with
  | Ok files => Listing true 200 (sort_newest_first files)
  | Raise e => Listing false 500 []
  end.

(** The response of [process_file]. *)
Record process_response : Type := ProcessResponse {
  success : bool;
  status : Z;
  text : string;                          (* 'message' or 'error' *)
  pdfUrl : option string;
  chartUrl : option string;
  pdfPath : option string;
  data : option HealthScoreOrchestrationService.result_data
}.

Definition process_file (rt : runtime) (self : t) (filename output_format : string)
  : process_response :=
  let filename := basename rt filename in
  if negb (exists_in (json_storage self) filename) then
    ProcessResponse false 404 "File not found" None None None None
  else
    match read_text (json_storage self) filename with
    | Raise e => ProcessResponse false 500 "Failed to process file" None None None None
    | Ok json_content =>
        let result :=
          JsonProcessingService.process_json rt (json_processing_service self) json_content in
        match JsonProcessingService.success result, JsonProcessingService.data result with
        | true, Some d =>
            let pdf_path := HealthScoreOrchestrationService.pdf_report_path d in
            let chart_path := HealthScoreOrchestrationService.chart_path d in
            if String.eqb output_format "html" then
              ProcessResponse true 200 (JsonProcessingService.message result)
                None (Some ("/api/view-chart?path=" +:+ chart_path)) None (Some d)
            else
              ProcessResponse true 200 (JsonProcessingService.message result)
                (Some ("/api/download-pdf?path=" +:+ pdf_path))
                (Some ("/api/view-chart?path=" +:+ chart_path))
                (Some pdf_path) (Some d)
        | _, _ =>
            ProcessResponse (JsonProcessingService.success result) 200
              (JsonProcessingService.message result) None None None
              (JsonProcessingService.data result)
        end
    end.

End FileController.

(* ===================================================================== *)
(** ** Vocabulary of the properties                                       *)
(* ===================================================================== *)

Definition in_range (lo hi v : Q) : Prop := (lo <= v)%Q /\ (v <= hi)%Q.

(** Every sub-score of the lookup table lies in [0,5]. *)
Definition table_in_range (lookups : HealthScoreService.lookup_table) : Prop :=
  map_Forall (fun _ mapping => Forall (fun kv => in_range 0 5 (snd kv)) mapping) lookups.

(** An Answer Map in the sense of the data model: every value is a string. *)
Definition string_valued (answers : pydict) : Prop :=
  forall k v, dict_lookup answers k = Some v -> exists s, v = JStr s.

(** The substring test of the fuzzy stage, in either direction. *)
Definition fuzzy_hit (answer key : string) : bool :=
  contains (lower answer) (lower key) || contains (lower key) (lower answer).

(** The question contributes nothing for one of the three reasons: it is
    not answered, it is not in the lookup table, or its answer matches no
    key, neither exactly nor by the substring test. *)
Definition unresolved (lookups : HealthScoreService.lookup_table) (answers : pydict)
    (uuid : string) : Prop :=
  dict_lookup answers (JStr uuid) = None \/
  lookups !! uuid = None \/
  exists a mapping,
    dict_lookup answers (JStr uuid) = Some (JStr a) /\
    lookups !! uuid = Some mapping /\
    alist_lookup a mapping = None /\
    Forall (fun key => fuzzy_hit a key = false) (map fst mapping).

(** The identifiers and inputs of the worked example. *)
Definition waist_circumference_id : string := "aa24a4d2-b1f2-408b-9d4a-4be80ec7508d".
Definition blood_pressure_sys_id : string := "27181fef-736e-4bee-ad31-7d8e983d61b3".

Definition two_answers : pydict :=
  [ (JStr waist_circumference_id, JStr "Low risk");
    (JStr blood_pressure_sys_id, JStr "Normal") ].

Definition choice_entry (ref label : string) : json :=
  JObj [ ("field", JObj [("ref", JStr ref)]);
         ("type", JStr "choice");
         ("choice", JObj [("label", JStr label)]) ].

Definition two_answers_payload : json :=
  JObj [ ("form_response",
          JObj [ ("answers",
                  JArr [ choice_entry waist_circumference_id "Low risk";
                         choice_entry blood_pressure_sys_id "Normal" ]) ]) ].

Definition example_lookups : HealthScoreService.lookup_table :=
  <[ waist_circumference_id := [("Low risk", 4%Q); ("High risk", 1%Q)] ]>
  (<[ blood_pressure_sys_id := [("Normal", 5%Q)] ]> ∅).

(** A runtime with no file on disk and a [json.loads] that hands back a
    fixed document. *)
Definition example_rt (doc : exn json) : runtime :=
  Runtime (fun _ => "0") (fun _ => "{}") (fun _ => doc) (fun _ => false)
          (fun _ => None) (fun _ => Raise (PyExc "FileNotFoundError" "no such file"))
          (fun s => s) (fun s => s) "2024-01-01".

(** A lookup table one of whose keys is the empty string, listed first. *)
Definition empty_key_mapping : list (string * Q) :=
  [("", 3%Q); ("Low", 1%Q); ("Low-Medium", 2%Q)].

Definition empty_key_lookups : HealthScoreService.lookup_table :=
  {[ waist_circumference_id := empty_key_mapping ]}.

Definition medium_low_answers : pydict :=
  [ (JStr waist_circumference_id, JStr "medium low") ].

(** A lookup table one of whose keys is the empty string, listed last. *)
Definition trailing_empty_key_lookups : HealthScoreService.lookup_table :=
  {[ waist_circumference_id := [("Low", 1%Q); ("", 2%Q)] ]}.

Definition empty_answer : pydict := [ (JStr waist_circumference_id, JStr "") ].

(** The reading of the empty answer under test: it always contributes the
    sub-score of the first stored key. *)
Definition empty_answer_takes_first_key : Prop :=
  forall (lookups : HealthScoreService.lookup_table) (answers : pydict)
         (uuid k : string) (v : Q) (rest : list (string * Q)),
    dict_lookup answers (JStr uuid) = Some (JStr "") ->
    lookups !! uuid = Some ((k, v) :: rest) ->
    HealthScoreService.question_score lookups answers uuid = Ok (Some v).

(** *** Payload structure *)

(** The shape the extractor reads: an object with a [form_response] object
    holding an [answers] array, each entry an object with a [field] object
    carrying a string [ref], and a string [type]. *)
Definition well_formed_answer (answer : json) : bool :=
  match answer with
  | JObj items =>
      match alist_lookup "field" items, alist_lookup "type" items with
      | Some (JObj field), Some (JStr _) =>
          match alist_lookup "ref" field with Some (JStr _) => true | _ => false end
      | _, _ => false
      end
  | _ => false
  end.

Definition well_formed_payload (payload : json) : bool :=
  match payload with
  | JObj items =>
      match alist_lookup "form_response" items with
      | Some (JObj form_response) =>
          match alist_lookup "answers" form_response with
          | Some (JArr answers) => forallb well_formed_answer answers
          | _ => false
          end
      | _ => false
      end
  | _ => false
  end.

(** The reading of a malformed payload under test: any payload off that
    shape is extracted to the empty answer map. *)
Definition malformed_gives_empty_map : Prop :=
  forall (rt : runtime) (payload : json),
    well_formed_payload payload = false ->
    HealthScoreService._extract_answers rt payload = [].

(** A payload whose single answer entry has neither field nor type. *)
Definition bare_entry_payload : json :=
  JObj [ ("form_response", JObj [ ("answers", JArr [ JObj [] ]) ]) ].

(** A payload whose waist-circumference choice carries a number for label. *)
Definition numeric_label_payload : json :=
  JObj [ ("form_response",
          JObj [ ("answers",
                  JArr [ JObj [ ("field", JObj [("ref", JStr waist_circumference_id)]);
                                ("type", JStr "choice");
                                ("choice", JObj [("label", JNum 5)]) ] ]) ]) ].

(** The payload is an object without [form_response], or its
    [form_response] is an object without [answers]. *)
Definition no_answer_list (payload : json) : Prop :=
  exists items, payload = JObj items /\
    (alist_lookup "form_response" items = None \/
     exists form_response,
       alist_lookup "form_response" items = Some (JObj form_response) /\
       alist_lookup "answers" form_response = None).

(** The traversal of the extractor raises, or finds no answer list. *)
Definition degenerate (rt : runtime) (payload : json) : Prop :=
  raised (HealthScoreService.extract_answers_try rt payload) = true \/
  no_answer_list payload.

(** *** Collaborators of the examples *)

(** A chart renderer that succeeds and a document renderer that raises. *)
Definition failing_pdf_renderers : HealthScoreOrchestrationService.t :=
  HealthScoreOrchestrationService.Build
    (fun _ => Ok "charts/chart.png")
    (fun _ _ _ => Raise (PyExc "OSError" "No space left on device")).

Definition failing_pdf_service : JsonProcessingService.t :=
  JsonProcessingService.Build example_lookups failing_pdf_renderers.

(** A mail service with a key whose provider accepts every message. *)
Definition accepting_mailer : EmailService.t :=
  EmailService.Build (Some "SG.key") (fun _ => Ok 202%Z).

Definition example_controller : WebhookController.t :=
  WebhookController.Build (fun _ => Ok "Webhook_20240101_000000_ab.json")
    failing_pdf_service accepting_mailer.

(** The six pillar scores of a score set. *)
Definition pillars_of (ps : PillarScores) : list Q :=
  [ muscles_and_visceral_fat ps; cardio_vascular ps; sleep ps;
    cognitive ps; metabolic ps; emotional ps ].

(** The unweighted mean of the six pillar scores, as [calculate] sums them. *)
Definition mean_of_pillars (ps : PillarScores) : Q :=
  py_truediv
    (py_add (py_add (py_add (py_add (py_add (muscles_and_visceral_fat ps)
                                       (cardio_vascular ps))
                               (sleep ps)) (cognitive ps)) (metabolic ps))
       (emotional ps))
    6.

(** The invariant of a Pillar Score Set. *)
Definition well_scored (ps : PillarScores) : Prop :=
  Forall (in_range 0 100) (pillars_of ps) /\
  overall ps = round1 (mean_of_pillars ps) /\
  in_range 0 100 (overall ps).

(** A score set whose seven scores are all zero. *)
Definition all_zero (ps : PillarScores) : Prop :=
  Forall (fun v => (v == 0)%Q) (pillars_of ps) /\ (overall ps == 0)%Q.

(** *** Reading one answer entry *)

Definition is_object (v : json) : bool :=
  match v with JObj _ => true | _ => false end.

(** The answer list the extractor iterates over. *)
Definition answers_of (payload : json) : exn json :=
  form_response ← py_get payload "form_response" (JObj []);
  py_get form_response "answers" (JArr []).

(** [answer.get('field', {}).get('ref', '')]. *)
Definition entry_ref (answer : json) : exn json :=
  field ← py_get answer "field" (JObj []);
  py_get field "ref" (JStr "").

(** The value the extractor derives from an entry. *)
Definition entry_value (rt : runtime) (answer : json) : exn json :=
  answer_type ← py_get answer "type" (JStr "");
  HealthScoreService.answer_value rt answer answer_type.

(** *** Inputs and collaborators of the further examples *)

Definition waist_hip_ratio_id : string := "9c968d6d-e21b-448a-b8fb-30056f76ffff".

Definition payload_of_answers (items : list json) : json :=
  JObj [ ("form_response", JObj [ ("answers", JArr items) ]) ].

(** A well-formed entry followed by a bare string. *)
Definition one_bad_entry_payload : json :=
  payload_of_answers [ choice_entry waist_circumference_id "Low risk"; JStr "oops" ].

(** Two entries for the same field. *)
Definition answered_twice_payload : json :=
  payload_of_answers [ choice_entry waist_circumference_id "High risk";
                       choice_entry waist_circumference_id "Low risk" ].

Definition text_entry (ref text : string) : list (string * json) :=
  [ ("field", JObj [("ref", JStr ref)]); ("type", JStr "text"); ("text", JStr text) ].

Definition named_payload : json :=
  payload_of_answers [ choice_entry waist_circumference_id "Low risk";
                       JObj (text_entry "name_field_ref" "Ada");
                       JObj (text_entry "name_field_ref" "Grace") ].

Definition email_entry : list (string * json) :=
  [ ("field", JObj [("ref", JStr WebhookController.email_ref)]);
    ("type", JStr "email");
    ("email", JStr "ada@example.org") ].

Definition waist_entry : list (string * json) :=
  [ ("field", JObj [("ref", JStr waist_circumference_id)]);
    ("type", JStr "choice");
    ("choice", JObj [("label", JStr "Low risk")]) ].

Definition low_medium_lookups : HealthScoreService.lookup_table :=
  {[ waist_circumference_id := [("Low", 1%Q); ("Low-Medium", 2%Q)] ]}.

Definition lower_case_answers : pydict :=
  [ (JStr waist_circumference_id, JStr "low risk") ].

(** A table whose one sub-score, 23/512, is a double that the
    normalization and the mean both have to round. *)
Definition protein_intake_id : string := "f9a247fc-e8d3-4bd8-b7e1-ae54f6766993".

Definition protein_lookups : HealthScoreService.lookup_table :=
  {[ protein_intake_id := [("A", (23 # 512)%Q)] ]}.

Definition protein_answers : pydict := [ (JStr protein_intake_id, JStr "A") ].

(** A runtime on whose disk there is the generated report and nothing
    else. *)
Definition report_only_rt : runtime :=
  Runtime (fun _ => "0") (fun _ => "{}") (fun _ => Ok two_answers_payload)
          (fun p => String.eqb p "reports/report.pdf") (fun _ => None)
          (fun _ => Ok "%PDF-1.4") (fun s => s) (fun s => s) "2024-01-01".

(** A runtime whose files all exist and hold the same bytes. *)
Definition disk_rt : runtime :=
  Runtime (fun _ => "0") (fun _ => "{}") (fun _ => Ok two_answers_payload)
          (fun _ => true) (fun _ => None) (fun _ => Ok "%PDF-1.4")
          (fun s => s) (fun s => s) "2024-01-01".

Definition working_renderers : HealthScoreOrchestrationService.t :=
  HealthScoreOrchestrationService.Build
    (fun _ => Ok "charts/chart.png") (fun _ _ _ => Ok "reports/report.pdf").

Definition working_service : JsonProcessingService.t :=
  JsonProcessingService.Build example_lookups working_renderers.

Definition working_controller : WebhookController.t :=
  WebhookController.Build (fun _ => Ok "Webhook_20240101_000000_ab.json")
    working_service accepting_mailer.

(** A directory with two JSON files and a text file. *)
Definition example_storage : FileController.storage :=
  FileController.Storage
    (Ok ["a.json"; "notes.txt"; "b.json"])
    (fun n => if String.eqb n "a.json" then Ok ("2024-01-01T10:00:00", 10%Z)
              else Ok ("2024-03-05T08:30:00", 20%Z))
    (fun _ => true) (fun _ => Ok "{}").

Definition example_file_controller : FileController.t :=
  FileController.Build example_storage working_service.

(* ===================================================================== *)
(** * Properties                                                          *)
(* ===================================================================== *)

(** ** Rounding and means *)

Section Numbers.
Local Open Scope Q_scope.

Lemma round_half_even_bounds (q : Q) (lo hi : Z) :
  inject_Z lo <= q -> q <= inject_Z hi ->
  (lo <= round_half_even q <= hi)%Z.
Proof.
  intros Hlo Hhi.
  assert (Hf1 : (lo <= Qfloor q)%Z).
  { rewrite <- (Qfloor_Z lo). now apply Qfloor_resp_le. }
  assert (Hf2 : (Qfloor q <= hi)%Z).
  { rewrite <- (Qfloor_Z hi). now apply Qfloor_resp_le. }
  assert (Hup : inject_Z (Qfloor q) < q -> (Qfloor q + 1 <= hi)%Z).
  { intros Hlt. assert (H : inject_Z (Qfloor q) < inject_Z hi)
      by (eapply Qlt_le_trans; eauto).
    rewrite <- Zlt_Qlt in H. lia. }
  assert (Hhalf : 1 # 2 <= q - inject_Z (Qfloor q) -> inject_Z (Qfloor q) < q).
  { intros H. apply (Qplus_lt_l _ _ (- inject_Z (Qfloor q))).
    rewrite Qplus_opp_r. eapply Qlt_le_trans; [|exact H]. reflexivity. }
  unfold round_half_even.
  destruct (Qcompare_spec (q - inject_Z (Qfloor q)) (1 # 2)) as [He|Hl|Hg].
  - destruct (Z.even (Qfloor q)); [lia|].
    split; [lia|]. apply Hup, Hhalf. rewrite He. apply Qle_refl.
  - lia.
  - split; [lia|]. apply Hup, Hhalf. now apply Qlt_le_weak.
Qed.

Lemma round_half_even_comp (x y : Q) : x == y -> round_half_even x = round_half_even y.
Proof.
  intros E. unfold round_half_even.
  rewrite (Qfloor_comp _ _ E).
  assert (E' : x - inject_Z (Qfloor y) == y - inject_Z (Qfloor y)) by now rewrite E.
  now rewrite (Qcompare_comp _ _ E' _ _ (Qeq_refl (1 # 2))).
Qed.

Lemma round_half_even_le (q : Q) (hi : Z) :
  q <= inject_Z hi -> (round_half_even q <= hi)%Z.
Proof.
  intros H. apply (round_half_even_bounds q (Qfloor q) hi); [apply Qfloor_le|exact H].
Qed.

Lemma round_half_even_ge (q : Q) (lo : Z) :
  inject_Z lo <= q -> (lo <= round_half_even q)%Z.
Proof.
  intros H. apply (round_half_even_bounds q lo (Qceiling q)); [exact H|apply Qle_ceiling].
Qed.

Lemma round_half_even_floor (q : Q) :
  (Qfloor q <= round_half_even q <= Qfloor q + 1)%Z.
Proof.
  unfold round_half_even.
  destruct (Qcompare (q - inject_Z (Qfloor q)) (1 # 2)); [|lia|lia].
  destruct (Z.even (Qfloor q)); lia.
Qed.

Lemma round_half_even_mono (x y : Q) :
  x <= y -> (round_half_even x <= round_half_even y)%Z.
Proof.
  intros Hxy.
  pose proof (Qfloor_resp_le x y Hxy) as Hf.
  pose proof (round_half_even_floor x) as Hx.
  pose proof (round_half_even_floor y) as Hy.
  destruct (Z.eq_dec (Qfloor x) (Qfloor y)) as [E|Hne]; [|lia].
  clear Hx Hy. unfold round_half_even. rewrite E.
  destruct (Qcompare_spec (x - inject_Z (Qfloor y)) (1 # 2)) as [Ex|Lx|Gx];
    destruct (Qcompare_spec (y - inject_Z (Qfloor y)) (1 # 2)) as [Ey|Ly|Gy];
    destruct (Z.even (Qfloor y)); try lia; exfalso; lra.
Qed.

(** *** Rounding to the nearest double *)

Lemma pow2_pos (e : Z) : 0 < 2 ^ e.
Proof. apply Qpower_0_lt. reflexivity. Qed.

Lemma pow2_nonzero (e : Z) : ~ 2 ^ e == 0.
Proof. intros H. pose proof (pow2_pos e) as P. rewrite H in P. discriminate P. Qed.

Lemma pow2_le (a b : Z) : (a <= b)%Z -> 2 ^ a <= 2 ^ b.
Proof. intros H. apply Qpower_le_compat_l; [exact H|discriminate]. Qed.

Lemma pow2_lt_inv (a b : Z) : 2 ^ a < 2 ^ b -> (a < b)%Z.
Proof. intros H. eapply Qpower_lt_compat_l_inv; [exact H|reflexivity]. Qed.

Lemma pow2_split (a b : Z) : 2 ^ a == 2 ^ (a - b) * 2 ^ b.
Proof.
  rewrite <- Qpower_plus by discriminate. now replace (a - b + b)%Z with a by ring.
Qed.

Lemma pow2_inject (n : Z) : (0 <= n)%Z -> 2 ^ n == inject_Z (2 ^ n).
Proof. intros H. now rewrite (Zpower_Qpower 2 n H). Qed.

(** [q] measured in units of [2^e]. *)
Lemma div_pow2_le (q : Q) (c e : Z) :
  (e <= c)%Z -> q <= 2 ^ c -> q / 2 ^ e <= inject_Z (2 ^ (c - e)).
Proof.
  intros Hec Hq. rewrite <- pow2_inject by lia.
  apply Qle_shift_div_r; [apply pow2_pos|]. now rewrite <- pow2_split.
Qed.

Lemma div_pow2_ge (q : Q) (c e : Z) :
  (e <= c)%Z -> 2 ^ c <= q -> inject_Z (2 ^ (c - e)) <= q / 2 ^ e.
Proof.
  intros Hec Hq. rewrite <- pow2_inject by lia.
  apply Qle_shift_div_l; [apply pow2_pos|]. now rewrite <- pow2_split.
Qed.

Lemma log2_bounds (n : Z) :
  (0 < n)%Z -> 2 ^ Z.log2 n <= inject_Z n /\ inject_Z n < 2 ^ (Z.log2 n + 1).
Proof.
  intros Hn. destruct (Z.log2_spec n Hn) as [H1 H2].
  pose proof (Z.log2_nonneg n) as H0.
  rewrite !pow2_inject by lia. rewrite <- Zle_Qle, <- Zlt_Qlt.
  split; [exact H1|]. now rewrite Z.add_1_r.
Qed.

Lemma binade_spec (q : Q) :
  0 < q -> 2 ^ binade q <= q /\ q < 2 ^ (binade q + 1).
Proof.
  intros Hq. unfold binade.
  destruct q as [n d]. cbn [Qnum Qden].
  assert (Hn : (0 < n)%Z) by (unfold Qlt in Hq; cbn in Hq; lia).
  destruct (log2_bounds n Hn) as [N1 N2].
  destruct (log2_bounds (Zpos d) eq_refl) as [D1 D2].
  set (a := Z.log2 n) in *. set (b := Z.log2 (Zpos d)) in *.
  assert (E : n # d == inject_Z n / inject_Z (Zpos d)) by apply Qmake_Qdiv.
  assert (Hd : 0 < inject_Z (Zpos d)) by reflexivity.
  assert (Hlow : 2 ^ (a - b - 1) <= n # d).
  { rewrite E. apply Qle_shift_div_l; [exact Hd|].
    eapply Qle_trans; [|exact N1].
    rewrite (pow2_split a (b + 1)).
    replace (a - (b + 1))%Z with (a - b - 1)%Z by ring.
    apply Qmult_le_l; [apply pow2_pos|]. now apply Qlt_le_weak. }
  assert (Hhigh : n # d < 2 ^ (a - b + 1)).
  { rewrite E. apply Qlt_shift_div_r; [exact Hd|].
    eapply Qlt_le_trans; [exact N2|].
    rewrite (pow2_split (a + 1) b).
    replace (a + 1 - b)%Z with (a - b + 1)%Z by ring.
    apply Qmult_le_l; [apply pow2_pos|]. exact D1. }
  destruct (Qle_bool (2 ^ (a - b)) (n # d)) eqn:Hc.
  - apply Qle_bool_iff in Hc. now split.
  - split; [exact Hlow|].
    replace (a - b - 1 + 1)%Z with (a - b)%Z by ring.
    apply Qnot_le_lt. intros H. apply Qle_bool_iff in H. congruence.
Qed.

Lemma binade_unique (q : Q) (b : Z) :
  2 ^ b <= q -> q < 2 ^ (b + 1) -> binade q = b.
Proof.
  intros H1 H2.
  assert (Hq : 0 < q) by (eapply Qlt_le_trans; [apply (pow2_pos b)|exact H1]).
  destruct (binade_spec q Hq) as [S1 S2].
  assert (A : (binade q < b + 1)%Z).
  { apply pow2_lt_inv. eapply Qle_lt_trans; eauto. }
  assert (B : (b < binade q + 1)%Z).
  { apply pow2_lt_inv. eapply Qle_lt_trans; eauto. }
  lia.
Qed.

Lemma binade_comp (x y : Q) : 0 < x -> x == y -> binade x = binade y.
Proof.
  intros Hx E. symmetry. destruct (binade_spec x Hx) as [S1 S2].
  apply binade_unique; now rewrite <- E.
Qed.

Lemma binade_mono (x y : Q) : 0 < x -> x <= y -> (binade x <= binade y)%Z.
Proof.
  intros Hx Hxy.
  assert (Hy : 0 < y) by (eapply Qlt_le_trans; eauto).
  destruct (binade_spec x Hx) as [X1 _]. destruct (binade_spec y Hy) as [_ Y2].
  assert (H : (binade x < binade y + 1)%Z).
  { apply pow2_lt_inv. eapply Qle_lt_trans; [exact X1|].
    eapply Qle_lt_trans; eauto. }
  lia.
Qed.

Lemma nearest_positive_le (q : Q) (c : Z) :
  (ulp_exponent q <= c)%Z -> q <= 2 ^ c -> nearest_positive q <= 2 ^ c.
Proof.
  intros Hc Hq. unfold nearest_positive.
  set (e := ulp_exponent q) in *.
  rewrite (pow2_split c e), (pow2_inject (c - e)) by lia.
  apply Qmult_le_compat_r; [|apply Qlt_le_weak, pow2_pos].
  rewrite <- Zle_Qle. apply round_half_even_le. now apply div_pow2_le.
Qed.

Lemma nearest_positive_ge (q : Q) (c : Z) :
  (ulp_exponent q <= c)%Z -> 2 ^ c <= q -> 2 ^ c <= nearest_positive q.
Proof.
  intros Hc Hq. unfold nearest_positive.
  set (e := ulp_exponent q) in *.
  rewrite (pow2_split c e), (pow2_inject (c - e)) by lia.
  apply Qmult_le_compat_r; [|apply Qlt_le_weak, pow2_pos].
  rewrite <- Zle_Qle. apply round_half_even_ge. now apply div_pow2_ge.
Qed.

Lemma nearest_positive_nonneg (q : Q) : 0 <= q -> 0 <= nearest_positive q.
Proof.
  intros Hq. unfold nearest_positive.
  apply Qmult_le_0_compat; [|apply Qlt_le_weak, pow2_pos].
  change 0 with (inject_Z 0). rewrite <- Zle_Qle. apply round_half_even_ge.
  apply Qle_shift_div_l; [apply pow2_pos|]. now rewrite Qmult_0_l.
Qed.

Lemma ulp_exponent_comp (x y : Q) : 0 < x -> x == y -> ulp_exponent x = ulp_exponent y.
Proof. intros Hx E. unfold ulp_exponent. now rewrite (binade_comp x y Hx E). Qed.

Lemma nearest_positive_comp (x y : Q) :
  0 < x -> x == y -> nearest_positive x = nearest_positive y.
Proof.
  intros Hx E. unfold nearest_positive. rewrite (ulp_exponent_comp x y Hx E).
  f_equal. f_equal. apply round_half_even_comp. now rewrite E.
Qed.

Lemma nearest_positive_mono (x y : Q) :
  0 < x -> x <= y -> nearest_positive x <= nearest_positive y.
Proof.
  intros Hx Hxy.
  assert (Hy : 0 < y) by (eapply Qlt_le_trans; eauto).
  pose proof (binade_mono x y Hx Hxy) as Hb.
  destruct (Z.eq_dec (ulp_exponent x) (ulp_exponent y)) as [E|Hne].
  - unfold nearest_positive. rewrite E.
    apply Qmult_le_compat_r; [|apply Qlt_le_weak, pow2_pos].
    rewrite <- Zle_Qle. apply round_half_even_mono.
    apply Qmult_le_compat_r; [exact Hxy|].
    apply Qlt_le_weak, Qinv_lt_0_compat, pow2_pos.
  - destruct (binade_spec x Hx) as [_ X2]. destruct (binade_spec y Hy) as [Y1 _].
    assert (Hlt : (binade x < binade y)%Z) by (unfold ulp_exponent in Hne; lia).
    apply Qle_trans with (2 ^ binade y).
    + apply nearest_positive_le; [unfold ulp_exponent in *; lia|].
      apply Qlt_le_weak. eapply Qlt_le_trans; [exact X2|]. apply pow2_le. lia.
    + apply nearest_positive_ge; [unfold ulp_exponent in *; lia|exact Y1].
Qed.

Lemma double_comp (x y : Q) : x == y -> double x = double y.
Proof.
  intros E. unfold double.
  rewrite (Qcompare_comp x y E 0 0 (Qeq_refl 0)).
  destruct (Qcompare_spec y 0) as [H|H|H]; [reflexivity| |].
  - f_equal. apply nearest_positive_comp; [|now rewrite E].
    rewrite E. lra.
  - apply nearest_positive_comp; [now rewrite E|exact E].
Qed.

Lemma double_mono (x y : Q) : x <= y -> double x <= double y.
Proof.
  intros Hxy. unfold double.
  destruct (Qcompare_spec x 0) as [Hx|Hx|Hx]; destruct (Qcompare_spec y 0) as [Hy|Hy|Hy];
    try (exfalso; lra); try apply Qle_refl.
  - apply nearest_positive_nonneg. lra.
  - assert (H : 0 <= nearest_positive (- x)) by (apply nearest_positive_nonneg; lra).
    lra.
  - assert (H : nearest_positive (- y) <= nearest_positive (- x))
      by (apply nearest_positive_mono; lra).
    lra.
  - assert (H1 : 0 <= nearest_positive (- x)) by (apply nearest_positive_nonneg; lra).
    assert (H2 : 0 <= nearest_positive y) by (apply nearest_positive_nonneg; lra).
    lra.
  - now apply nearest_positive_mono.
Qed.

Lemma double_nonneg (x : Q) : 0 <= x -> 0 <= double x.
Proof. intros H. apply (double_mono 0 x H). Qed.

(** A value between two doubles rounds to a value between them. *)
Lemma double_between (lo hi x : Q) :
  double lo == lo -> double hi == hi ->
  lo <= x -> x <= hi -> lo <= double x /\ double x <= hi.
Proof.
  intros Elo Ehi Hlo Hhi. split.
  - rewrite <- Elo. now apply double_mono.
  - rewrite <- Ehi. now apply double_mono.
Qed.

(** *** Rounding to one decimal *)

Lemma round1_comp (x y : Q) : x == y -> round1 x = round1 y.
Proof.
  intros E. unfold round1. f_equal. f_equal. apply round_half_even_comp. now rewrite E.
Qed.

Lemma tenths_mono (a b : Z) : (a <= b)%Z -> a # 10 <= b # 10.
Proof. intros H. unfold Qle; cbn. lia. Qed.

Lemma round1_mono (x y : Q) : x <= y -> round1 x <= round1 y.
Proof.
  intros Hxy. unfold round1. apply double_mono, tenths_mono, round_half_even_mono. lra.
Qed.

Lemma round1_bounds (x : Q) : 0 <= x -> x <= 100 -> 0 <= round1 x /\ round1 x <= 100.
Proof.
  intros H0 H100.
  destruct (round_half_even_bounds (x * 10) 0 1000) as [Ha Hb].
  - change (inject_Z 0) with (0 * 10). apply Qmult_le_compat_r; [assumption|discriminate].
  - change (inject_Z 1000) with (100 * 10). apply Qmult_le_compat_r; [assumption|discriminate].
  - unfold round1. apply double_between; try reflexivity.
    + unfold Qle; cbn. lia.
    + unfold Qle; cbn. lia.
Qed.

Lemma normalize_bounds (raw : Q) :
  0 <= raw -> raw <= 5 ->
  0 <= HealthScoreService._normalize_score raw /\
  HealthScoreService._normalize_score raw <= 100.
Proof.
  intros H0 H5. unfold HealthScoreService._normalize_score, py_mul.
  destruct (double_between 0 100 (raw * 20)) as [Ha Hb]; try reflexivity; try lra.
  now apply round1_bounds.
Qed.

(** *** The mean of the one or two scores of a pillar *)

Lemma py_add_between (lo1 hi1 lo2 hi2 x y : Q) :
  double (lo1 + lo2) == lo1 + lo2 -> double (hi1 + hi2) == hi1 + hi2 ->
  lo1 <= x -> x <= hi1 -> lo2 <= y -> y <= hi2 ->
  lo1 + lo2 <= py_add x y /\ py_add x y <= hi1 + hi2.
Proof.
  intros Elo Ehi ? ? ? ?. unfold py_add. apply double_between; try assumption; lra.
Qed.

Lemma mean_bounds (xs : list Q) :
  xs <> [] -> (length xs <= 2)%nat -> Forall (in_range 0 5) xs ->
  in_range 0 5 (py_truediv (py_sum xs) (inject_Z (Z.of_nat (length xs)))).
Proof.
  intros Hne Hlen Hall. unfold in_range in *.
  destruct xs as [|a [|b [|c xs]]]; [congruence| | |cbn in Hlen; lia].
  - inversion Hall as [|? ? [Ha1 Ha2] _]; subst.
    unfold py_sum, py_truediv. cbn [fold_left].
    change (inject_Z (Z.of_nat (length [a]))) with 1.
    destruct (py_add_between 0 0 0 5 0 a) as [S1 S2]; try reflexivity; try lra.
    apply double_between; try reflexivity.
    + apply Qle_shift_div_l; [reflexivity|lra].
    + apply Qle_shift_div_r; [reflexivity|lra].
  - inversion Hall as [|? ? [Ha1 Ha2] Hrest]; subst.
    inversion Hrest as [|? ? [Hb1 Hb2] _]; subst.
    unfold py_sum, py_truediv. cbn [fold_left].
    change (inject_Z (Z.of_nat (length [a; b]))) with 2.
    destruct (py_add_between 0 0 0 5 0 a) as [S1 S2]; try reflexivity; try lra.
    destruct (py_add_between (0 + 0) (0 + 5) 0 5 (py_add 0 a) b) as [T1 T2];
      try reflexivity; try lra.
    apply double_between; try reflexivity.
    + apply Qle_shift_div_l; [reflexivity|lra].
    + apply Qle_shift_div_r; [reflexivity|lra].
Qed.

End Numbers.

(** ** The error monad *)

Lemma bind_Ok_inv {A B : Type} (m : exn A) (k : A -> exn B) (b : B) :
  (x ← m; k x) = Ok b -> exists a, m = Ok a /\ k a = Ok b.
Proof.
  destruct m as [a|e]; cbn; intros H; [eauto|discriminate].
Qed.

Lemma bind_Ok {A B : Type} (m : exn A) (k : A -> exn B) (a : A) :
  m = Ok a -> (x ← m; k x) = k a.
Proof. now intros ->. Qed.

(** ** The scorer *)

Section Scorer.
Import HealthScoreService.

Lemma alist_lookup_In {V : Type} (k : string) (d : list (string * V)) (v : V) :
  alist_lookup k d = Some v -> In (k, v) d.
Proof.
  induction d as [|[k' v'] d IH]; cbn; [discriminate|].
  destruct (String.eqb_spec k k') as [->|Hne].
  - intros [= ->]. now left.
  - intros H. right. auto.
Qed.

Lemma alist_lookup_key {V : Type} (k : string) (d : list (string * V)) :
  In k (map fst d) -> exists v, alist_lookup k d = Some v.
Proof.
  induction d as [|[k' v'] d IH]; cbn; [tauto|].
  destruct (String.eqb_spec k k') as [->|Hne]; [eauto|].
  intros [E|Hin]; [congruence|auto].
Qed.

(** On a string answer the loop over the keys is [find] with the
    substring test. *)
Lemma find_best_match_str (a : string) (keys : list string) :
  find_best_match (JStr a) keys = Ok (find (fuzzy_hit a) keys).
Proof.
  induction keys as [|key rest IH]; [reflexivity|].
  cbn. unfold fuzzy_hit.
  destruct (contains (lower a) (lower key) || contains (lower key) (lower a)); auto.
Qed.

(** On any other answer the loop raises unless there is no key to try. *)
Lemma find_best_match_Ok (answer : json) (keys : list string) (r : option string) :
  find_best_match answer keys = Ok r ->
  (exists a, answer = JStr a) \/ r = None.
Proof.
  destruct answer; try (left; eauto; fail);
    destruct keys; cbn; intros H; try discriminate; right; congruence.
Qed.

(** The two stages on a string answer, as one pure function. *)
Lemma resolve_answer_str (a : string) (mapping : list (string * Q)) :
  resolve_answer (JStr a) mapping =
  Ok (match alist_lookup a mapping with
      | Some v => Some v
      | None =>
          match find (fuzzy_hit a) (map fst mapping) with
          | Some key => if String.eqb key "" then None else alist_lookup key mapping
          | None => None
          end
      end).
Proof.
  unfold resolve_answer. cbn.
  destruct (alist_lookup a mapping) as [v|] eqn:Ha; cbn; [reflexivity|].
  rewrite find_best_match_str. cbn.
  destruct (find (fuzzy_hit a) (map fst mapping)) as [key|] eqn:Hf; [|reflexivity].
  destruct (String.eqb key ""); cbn; [reflexivity|].
  apply find_some in Hf as [Hin _].
  destruct (alist_lookup_key key mapping Hin) as [v ->]. reflexivity.
Qed.

(** Whatever is appended to [scores] is a value of the mapping. *)
Lemma resolve_answer_value (answer : json) (mapping : list (string * Q)) (v : Q) :
  resolve_answer answer mapping = Ok (Some v) -> exists k, In (k, v) mapping.
Proof.
  destruct answer as [| b | q | a | l | l ].
  4:{ rewrite resolve_answer_str. intros [= H].
      destruct (alist_lookup a mapping) as [v'|] eqn:Ha.
      - injection H as ->. eauto using alist_lookup_In.
      - destruct (find (fuzzy_hit a) (map fst mapping)) as [key|]; [|discriminate].
        destruct (String.eqb key ""); [discriminate|]. eauto using alist_lookup_In. }
  all: unfold resolve_answer; cbn; try discriminate.
  all: destruct (map fst mapping); cbn; discriminate.
Qed.

Lemma question_score_value (lookups : lookup_table) (answers : pydict)
    (uuid : string) (v : Q) :
  table_in_range lookups ->
  question_score lookups answers uuid = Ok (Some v) -> in_range 0 5 v.
Proof.
  intros Htab. unfold question_score.
  destruct (dict_lookup answers (JStr uuid)) as [answer|]; [|discriminate].
  destruct (lookups !! uuid) as [mapping|] eqn:Hl; [|discriminate].
  intros H. apply resolve_answer_value in H as [k Hin].
  specialize (Htab uuid mapping Hl). cbn in Htab.
  rewrite List.Forall_forall in Htab. exact (Htab (k, v) Hin).
Qed.

Lemma question_score_total (lookups : lookup_table) (answers : pydict) (uuid : string) :
  string_valued answers -> exists r, question_score lookups answers uuid = Ok r.
Proof.
  intros Hstr. unfold question_score.
  destruct (dict_lookup answers (JStr uuid)) as [answer|] eqn:Ha; [|eauto].
  destruct (lookups !! uuid) as [mapping|]; [|eauto].
  destruct (Hstr _ _ Ha) as [a ->]. rewrite resolve_answer_str. eauto.
Qed.

Lemma pillar_loop_range (lookups : lookup_table) (answers : pydict)
    (pillar_uuids : list string) : forall scores scores' : list Q,
  table_in_range lookups ->
  Forall (in_range 0 5) scores ->
  pillar_loop lookups answers pillar_uuids scores = Ok scores' ->
  Forall (in_range 0 5) scores'.
Proof.
  induction pillar_uuids as [|uuid rest IH]; intros scores scores' Htab Hacc; cbn.
  - now intros [= <-].
  - intros H. apply bind_Ok_inv in H as (s & Hs & Hrest).
    eapply IH; [exact Htab| |exact Hrest].
    destruct s as [v|]; [|assumption].
    apply Forall_app. split; [assumption|].
    constructor; [|constructor]. eapply question_score_value; eauto.
Qed.

Lemma pillar_loop_total (lookups : lookup_table) (answers : pydict)
    (pillar_uuids : list string) : forall scores : list Q,
  string_valued answers ->
  exists scores', pillar_loop lookups answers pillar_uuids scores = Ok scores'.
Proof.
  induction pillar_uuids as [|uuid rest IH]; intros scores Hstr; cbn; [eauto|].
  destruct (question_score_total lookups answers uuid Hstr) as [s ->]. cbn.
  apply IH, Hstr.
Qed.

(** The loop appends at most one score per question. *)
Lemma pillar_loop_length (lookups : lookup_table) (answers : pydict)
    (pillar_uuids : list string) : forall scores scores' : list Q,
  pillar_loop lookups answers pillar_uuids scores = Ok scores' ->
  (length scores' <= length scores + length pillar_uuids)%nat.
Proof.
  induction pillar_uuids as [|uuid rest IH]; intros scores scores'; cbn [pillar_loop].
  - intros [= <-]. cbn. lia.
  - intros H. apply bind_Ok_inv in H as (s & _ & Hrest).
    apply IH in Hrest. destruct s; rewrite ?length_app in Hrest; cbn in *; lia.
Qed.

(** A pillar of one or two questions, as all six are. *)
Lemma pillar_score_range (lookups : lookup_table) (answers : pydict)
    (pillar_uuids : list string) (raw : Q) :
  table_in_range lookups ->
  (length pillar_uuids <= 2)%nat ->
  _calculate_pillar_score lookups answers pillar_uuids = Ok raw ->
  in_range 0 5 raw.
Proof.
  intros Htab Hlen H. unfold _calculate_pillar_score in H.
  apply bind_Ok_inv in H as (scores & Hloop & Hret).
  pose proof (pillar_loop_length _ _ _ _ _ Hloop) as Hn. cbn in Hn.
  apply pillar_loop_range in Hloop; [|assumption|constructor].
  destruct scores as [|x xs].
  - injection Hret as <-. split; discriminate.
  - injection Hret as <-. apply mean_bounds; [discriminate|lia|assumption].
Qed.

Lemma pillar_score_total (lookups : lookup_table) (answers : pydict)
    (pillar_uuids : list string) :
  string_valued answers ->
  exists raw, _calculate_pillar_score lookups answers pillar_uuids = Ok raw.
Proof.
  intros Hstr. unfold _calculate_pillar_score.
  destruct (pillar_loop_total lookups answers pillar_uuids [] Hstr) as [scores ->].
  cbn. destruct scores; eauto.
Qed.

End Scorer.

Section ScoreSet.
Import HealthScoreService.
Local Open Scope Q_scope.

Lemma mean_of_six_bounds (a b c d e f : Q) :
  in_range 0 100 a -> in_range 0 100 b -> in_range 0 100 c ->
  in_range 0 100 d -> in_range 0 100 e -> in_range 0 100 f ->
  in_range 0 100
    (py_truediv (py_add (py_add (py_add (py_add (py_add a b) c) d) e) f) 6).
Proof.
  unfold in_range. intros [? ?] [? ?] [? ?] [? ?] [? ?] [? ?].
  destruct (py_add_between 0 100 0 100 a b) as [A1 A2]; try reflexivity; try assumption.
  destruct (py_add_between (0 + 0) (100 + 100) 0 100 (py_add a b) c) as [B1 B2];
    try reflexivity; try assumption.
  destruct (py_add_between (0 + 0 + 0) (100 + 100 + 100) 0 100
              (py_add (py_add a b) c) d) as [C1 C2];
    try reflexivity; try assumption.
  destruct (py_add_between (0 + 0 + 0 + 0) (100 + 100 + 100 + 100) 0 100
              (py_add (py_add (py_add a b) c) d) e) as [D1 D2];
    try reflexivity; try assumption.
  destruct (py_add_between (0 + 0 + 0 + 0 + 0) (100 + 100 + 100 + 100 + 100) 0 100
              (py_add (py_add (py_add (py_add a b) c) d) e) f) as [E1 E2];
    try reflexivity; try assumption.
  unfold py_truediv. apply double_between; try reflexivity.
  - apply Qle_shift_div_l; [reflexivity|lra].
  - apply Qle_shift_div_r; [reflexivity|lra].
Qed.

Lemma normalize_in_range (raw : Q) :
  in_range 0 5 raw -> in_range 0 100 (_normalize_score raw).
Proof. intros [? ?]. now apply normalize_bounds. Qed.

Lemma calculate_scores_well_scored (lookups : lookup_table) (answers : pydict)
    (ps : PillarScores) :
  table_in_range lookups ->
  calculate_scores lookups answers = Ok ps -> well_scored ps.
Proof.
  intros Htab H. unfold calculate_scores in H.
  apply bind_Ok_inv in H as (r1 & H1 & H).
  apply bind_Ok_inv in H as (r2 & H2 & H).
  apply bind_Ok_inv in H as (r3 & H3 & H).
  apply bind_Ok_inv in H as (r4 & H4 & H).
  apply bind_Ok_inv in H as (r5 & H5 & H).
  apply bind_Ok_inv in H as (r6 & H6 & H).
  injection H as <-.
  apply pillar_score_range, normalize_in_range in H1, H2, H3, H4, H5, H6;
    try assumption; try (cbn; lia).
  unfold well_scored, pillars_of, mean_of_pillars; cbn.
  split; [repeat (apply List.Forall_cons; [assumption|]); apply List.Forall_nil|].
  split; [reflexivity|].
  apply round1_bounds; now apply mean_of_six_bounds.
Qed.

End ScoreSet.

(** The rounding of the program, not of the reals: with the sub-score
    23/512 the metabolic pillar is the double nearest to 0.9, a sixth of it
    is a double just below 0.15, and the overall score is the double
    nearest to 0.1, where the exact mean 0.15 would round to 0.2. *)
Example overall_rounds_the_double_mean :
  exists ps,
    HealthScoreService.calculate_scores protein_lookups protein_answers = Ok ps /\
    (metabolic ps == double (9 # 10))%Q /\
    (mean_of_pillars ps < 15 # 100)%Q /\
    (overall ps == double (1 # 10))%Q /\
    ~ (overall ps == double (2 # 10))%Q.
Proof.
  eexists. split; [vm_compute; reflexivity|].
  repeat split; try (vm_compute; reflexivity).
  intros H. vm_compute in H. discriminate H.
Qed.

(** C1. For every answer map and every lookup table whose sub-scores all lie
    in [0,5]: whenever [calculate] returns a score set, each of its six
    pillar scores lies in [0,100] and its overall score is the mean of the
    six pillar scores rounded to one decimal, hence in [0,100] as well; and
    on an answer map whose values are strings it does return one. The same
    holds of [calculate] on a payload, which scores the extracted answers. *)
Theorem calculate_bounded_and_mean
    (lookups : HealthScoreService.lookup_table) (answers : pydict) :
  table_in_range lookups ->
  (forall ps, HealthScoreService.calculate_scores lookups answers = Ok ps ->
              well_scored ps) /\
  (string_valued answers ->
   exists ps, HealthScoreService.calculate_scores lookups answers = Ok ps /\
              well_scored ps) /\
  (forall rt payload ps,
     HealthScoreService.calculate rt lookups payload = Ok ps -> well_scored ps).
Proof.
  intros Htab. split; [|split].
  - intros ps. now apply calculate_scores_well_scored.
  - intros Hstr.
    assert (Hex : exists ps, HealthScoreService.calculate_scores lookups answers = Ok ps).
    { unfold HealthScoreService.calculate_scores.
      destruct (pillar_score_total lookups answers HealthScoreService._pillar1 Hstr) as [r1 ->].
      destruct (pillar_score_total lookups answers HealthScoreService._pillar2 Hstr) as [r2 ->].
      destruct (pillar_score_total lookups answers HealthScoreService._pillar3 Hstr) as [r3 ->].
      destruct (pillar_score_total lookups answers HealthScoreService._pillar4 Hstr) as [r4 ->].
      destruct (pillar_score_total lookups answers HealthScoreService._pillar5 Hstr) as [r5 ->].
      destruct (pillar_score_total lookups answers HealthScoreService._pillar6 Hstr) as [r6 ->].
      cbn. eauto. }
    destruct Hex as [ps Hps]. exists ps. split; [assumption|].
    now apply (calculate_scores_well_scored lookups answers).
  - intros rt payload ps. unfold HealthScoreService.calculate.
    now apply calculate_scores_well_scored.
Qed.

(** ** Single questions *)

Section Questions.
Import HealthScoreService.
Variable lookups : lookup_table.
Variable answers : pydict.

Lemma question_score_absent (uuid : string) :
  dict_lookup answers (JStr uuid) = None \/ lookups !! uuid = None ->
  question_score lookups answers uuid = Ok None.
Proof.
  unfold question_score. intros [-> | ->]; [reflexivity|].
  now destruct (dict_lookup answers (JStr uuid)).
Qed.

Lemma question_score_str (uuid a : string) (mapping : list (string * Q)) :
  dict_lookup answers (JStr uuid) = Some (JStr a) ->
  lookups !! uuid = Some mapping ->
  question_score lookups answers uuid = resolve_answer (JStr a) mapping.
Proof. unfold question_score. now intros -> ->. Qed.

Lemma question_score_exact (uuid a : string) (mapping : list (string * Q)) (v : Q) :
  dict_lookup answers (JStr uuid) = Some (JStr a) ->
  lookups !! uuid = Some mapping ->
  alist_lookup a mapping = Some v ->
  question_score lookups answers uuid = Ok (Some v).
Proof.
  intros Ha Hm Hv. rewrite (question_score_str _ _ _ Ha Hm), resolve_answer_str.
  now rewrite Hv.
Qed.

Lemma find_none_of_Forall (a : string) (keys : list string) :
  Forall (fun key => fuzzy_hit a key = false) keys -> find (fuzzy_hit a) keys = None.
Proof.
  induction 1 as [|key keys Hk _ IH]; cbn; [reflexivity|]. now rewrite Hk.
Qed.

Lemma question_score_unresolved (uuid : string) :
  unresolved lookups answers uuid -> question_score lookups answers uuid = Ok None.
Proof.
  intros [H | [H | (a & mapping & Ha & Hm & Hx & Hf)]].
  - apply question_score_absent. now left.
  - apply question_score_absent. now right.
  - rewrite (question_score_str _ _ _ Ha Hm), resolve_answer_str, Hx.
    now rewrite (find_none_of_Forall _ _ Hf).
Qed.

Lemma pillar_loop_unresolved (pillar_uuids : list string) : forall scores : list Q,
  Forall (unresolved lookups answers) pillar_uuids ->
  pillar_loop lookups answers pillar_uuids scores = Ok scores.
Proof.
  induction pillar_uuids as [|uuid rest IH]; intros scores Hall; [reflexivity|].
  inversion Hall as [|? ? Hu Hrest]; subst.
  cbn [pillar_loop]. rewrite (question_score_unresolved _ Hu). cbn. now apply IH.
Qed.

Lemma unresolved_pillar_zero (pillar_uuids : list string) :
  Forall (unresolved lookups answers) pillar_uuids ->
  _calculate_pillar_score lookups answers pillar_uuids = Ok 0%Q.
Proof.
  intros Hall. unfold _calculate_pillar_score.
  now rewrite (pillar_loop_unresolved pillar_uuids [] Hall).
Qed.

End Questions.


(** C5. A pillar none of whose questions resolves has raw score exactly 0
    and normalized score 0: a number, not an error. *)
Theorem unresolved_pillar_scores_zero
    (lookups : HealthScoreService.lookup_table) (answers : pydict)
    (pillar_uuids : list string) :
  Forall (unresolved lookups answers) pillar_uuids ->
  HealthScoreService._calculate_pillar_score lookups answers pillar_uuids = Ok 0%Q /\
  (HealthScoreService._normalize_score 0 == 0)%Q.
Proof.
  intros Hall. split; [|reflexivity].
  now apply unresolved_pillar_zero.
Qed.

(** ** The fuzzy stage *)

Section Fuzzy.
Import HealthScoreService.

Lemma contains_empty (hay : string) : contains "" hay = true.
Proof. now destruct hay. Qed.

Lemma fuzzy_hit_empty_answer (key : string) : fuzzy_hit "" key = true.
Proof. unfold fuzzy_hit. cbn [lower]. now rewrite contains_empty. Qed.

(** The keys before the chosen one fail the substring test, the chosen one
    passes it. *)
Lemma find_first (a : string) (keys : list string) (key : string) :
  find (fuzzy_hit a) keys = Some key ->
  exists before after,
    keys = before ++ key :: after /\
    Forall (fun k => fuzzy_hit a k = false) before /\
    fuzzy_hit a key = true.
Proof.
  induction keys as [|k keys IH]; cbn; [discriminate|].
  destruct (fuzzy_hit a k) eqn:Hk.
  - intros [= ->]. exists [], keys. auto.
  - intros H. destruct (IH H) as (before & after & -> & Hb & Hhit).
    exists (k :: before), after. repeat split; auto.
Qed.

(** The fallback as the code runs it: without an exact match, the first key
    that passes the substring test contributes its sub-score, provided that
    key is not the empty string. *)
Lemma fuzzy_first_match (lookups : lookup_table) (answers : pydict)
    (uuid a key : string) (mapping : list (string * Q)) :
  dict_lookup answers (JStr uuid) = Some (JStr a) ->
  lookups !! uuid = Some mapping ->
  alist_lookup a mapping = None ->
  find (fuzzy_hit a) (map fst mapping) = Some key ->
  key <> "" ->
  exists v, alist_lookup key mapping = Some v /\
            question_score lookups answers uuid = Ok (Some v).
Proof.
  intros Ha Hm Hx Hf Hne.
  rewrite (question_score_str _ _ _ _ _ Ha Hm), resolve_answer_str, Hx, Hf.
  destruct (String.eqb_spec key "") as [E|_]; [contradiction|].
  apply find_some in Hf as [Hin _].
  destruct (alist_lookup_key key mapping Hin) as [v Hv]. rewrite Hv. eauto.
Qed.

(** The example of the specification: with keys "Low", "Low-Medium" in this
    order, "medium low" is matched to "Low". *)
Example medium_low_matches_low :
  find (fuzzy_hit "medium low") ["Low"; "Low-Medium"] = Some "Low" /\
  resolve_answer (JStr "medium low") [("Low", 1%Q); ("Low-Medium", 2%Q)] = Ok (Some 1%Q).
Proof. split; reflexivity. Qed.

End Fuzzy.

(** C2. The code at a lookup table whose first key is the empty string:
    the answer "medium low" equals no key, the first key passing the
    substring test is the empty string with sub-score 3, and the question
    contributes nothing, since [if best_match:] reads the empty key as no
    match. *)
Theorem fuzzy_empty_key_contributes_nothing :
  alist_lookup "medium low" empty_key_mapping = None /\
  find (fuzzy_hit "medium low") (map fst empty_key_mapping) = Some "" /\
  alist_lookup "" empty_key_mapping = Some 3%Q /\
  HealthScoreService.question_score empty_key_lookups medium_low_answers
    waist_circumference_id = Ok None /\
  HealthScoreService._calculate_pillar_score empty_key_lookups medium_low_answers
    HealthScoreService._pillar1 = Ok 0%Q.
Proof. repeat split; vm_compute; reflexivity. Qed.

(** C9, as stated, fails: with keys "Low", "" in this order the empty answer
    is an exact match of the second key and contributes 2, not the 1 of the
    first key. *)
Lemma empty_answer_not_always_first_key : ~ empty_answer_takes_first_key.
Proof.
  intros H.
  specialize (H trailing_empty_key_lookups empty_answer waist_circumference_id
                "Low" 1%Q [("", 2%Q)] eq_refl eq_refl).
  vm_compute in H. discriminate H.
Qed.

(** C9, amended. An empty answer to a question with a non-empty mapping is
    never skipped: if the empty string is itself a key, the exact stage
    contributes that key's sub-score; otherwise the fuzzy stage matches the
    first stored key and contributes its sub-score. *)
Theorem empty_answer_never_skipped
    (lookups : HealthScoreService.lookup_table) (answers : pydict)
    (uuid k : string) (v : Q) (rest : list (string * Q)) :
  dict_lookup answers (JStr uuid) = Some (JStr "") ->
  lookups !! uuid = Some ((k, v) :: rest) ->
  exists w,
    HealthScoreService.question_score lookups answers uuid = Ok (Some w) /\
    (alist_lookup "" ((k, v) :: rest) = None -> w = v) /\
    (forall w', alist_lookup "" ((k, v) :: rest) = Some w' -> w = w').
Proof.
  intros Ha Hm.
  rewrite (question_score_str _ _ _ _ _ Ha Hm), resolve_answer_str.
  destruct (alist_lookup "" ((k, v) :: rest)) as [w'|] eqn:Hx.
  - exists w'. split; [reflexivity|]. split; [intros [=]|]. now intros ? [= <-].
  - cbn [map fst find]. rewrite fuzzy_hit_empty_answer.
    cbn [alist_lookup] in Hx.
    destruct (String.eqb_spec "" k) as [E|Hne]; [discriminate|].
    destruct (String.eqb_spec k "") as [E|_]; [congruence|].
    cbn [alist_lookup]. rewrite String.eqb_refl.
    exists v. split; [reflexivity|]. split; [reflexivity|intros ? [=]].
Qed.

(** ** The worked example *)

Section WorkedExample.
Import HealthScoreService.
Local Open Scope Q_scope.

Variable lookups : lookup_table.
Variables (waist_mapping pressure_mapping : list (string * Q)) (low_risk normal : Q).
Hypothesis waist_listed : lookups !! waist_circumference_id = Some waist_mapping.
Hypothesis low_risk_listed : alist_lookup "Low risk" waist_mapping = Some low_risk.
Hypothesis pressure_listed : lookups !! blood_pressure_sys_id = Some pressure_mapping.
Hypothesis normal_listed : alist_lookup "Normal" pressure_mapping = Some normal.

Lemma two_answers_extracted (rt : runtime) :
  _extract_answers rt two_answers_payload = two_answers.
Proof. reflexivity. Qed.

Lemma two_answers_pillar1 :
  _calculate_pillar_score lookups two_answers _pillar1
    = Ok (py_truediv (py_add 0 low_risk) 1).
Proof.
  pose proof (question_score_exact lookups two_answers waist_circumference_id
                "Low risk" waist_mapping low_risk eq_refl waist_listed low_risk_listed)
    as Hq.
  unfold waist_circumference_id in Hq.
  unfold _calculate_pillar_score, _pillar1. cbn [pillar_loop]. rewrite Hq.
  rewrite question_score_absent by (left; reflexivity).
  reflexivity.
Qed.

Lemma two_answers_pillar2 :
  _calculate_pillar_score lookups two_answers _pillar2
    = Ok (py_truediv (py_add 0 normal) 1).
Proof.
  pose proof (question_score_exact lookups two_answers blood_pressure_sys_id
                "Normal" pressure_mapping normal eq_refl pressure_listed normal_listed)
    as Hq.
  unfold blood_pressure_sys_id in Hq.
  unfold _calculate_pillar_score, _pillar2. cbn [pillar_loop]. rewrite Hq.
  rewrite question_score_absent by (left; reflexivity).
  reflexivity.
Qed.

Lemma two_answers_other_pillar (pillar_uuids : list string) :
  Forall (fun uuid => dict_lookup two_answers (JStr uuid) = None) pillar_uuids ->
  _calculate_pillar_score lookups two_answers pillar_uuids = Ok 0.
Proof.
  intros Hall. apply unresolved_pillar_zero.
  eapply Forall_impl; [exact Hall|]. intros uuid H. now left.
Qed.

End WorkedExample.

(** C8. With exactly the waist-circumference question answered "Low risk"
    and the systolic blood-pressure question answered "Normal", and a lookup
    table that gives 4 and 5 for these answers, pillar 1 scores 80, pillar 2
    scores 100 and the other four pillars score 0; the payload carrying the
    two answers as choices yields the same score set. *)
Theorem example_low_risk_and_normal
    (lookups : HealthScoreService.lookup_table)
    (waist_mapping pressure_mapping : list (string * Q)) (low_risk normal : Q) :
  lookups !! waist_circumference_id = Some waist_mapping ->
  alist_lookup "Low risk" waist_mapping = Some low_risk ->
  (low_risk == 4)%Q ->
  lookups !! blood_pressure_sys_id = Some pressure_mapping ->
  alist_lookup "Normal" pressure_mapping = Some normal ->
  (normal == 5)%Q ->
  exists ps,
    HealthScoreService.calculate_scores lookups two_answers = Ok ps /\
    (forall rt, HealthScoreService.calculate rt lookups two_answers_payload = Ok ps) /\
    (muscles_and_visceral_fat ps == 80)%Q /\
    (cardio_vascular ps == 100)%Q /\
    (sleep ps == 0)%Q /\ (cognitive ps == 0)%Q /\
    (metabolic ps == 0)%Q /\ (emotional ps == 0)%Q.
Proof.
  intros Hw Hlow Hlow4 Hp Hnorm Hnorm5.
  assert (Hcalc : exists ps,
            HealthScoreService.calculate_scores lookups two_answers = Ok ps /\
            muscles_and_visceral_fat ps =
              HealthScoreService._normalize_score (py_truediv (py_add 0 low_risk) 1) /\
            cardio_vascular ps =
              HealthScoreService._normalize_score (py_truediv (py_add 0 normal) 1) /\
            sleep ps = HealthScoreService._normalize_score 0 /\
            cognitive ps = HealthScoreService._normalize_score 0 /\
            metabolic ps = HealthScoreService._normalize_score 0 /\
            emotional ps = HealthScoreService._normalize_score 0).
  { unfold HealthScoreService.calculate_scores.
    rewrite (two_answers_pillar1 lookups waist_mapping low_risk Hw Hlow).
    rewrite (two_answers_pillar2 lookups pressure_mapping normal Hp Hnorm).
    rewrite !(two_answers_other_pillar lookups)
      by (repeat (apply List.Forall_cons; [reflexivity|]); apply List.Forall_nil).
    cbn. eexists. split; [reflexivity|]. cbn. repeat split. }
  destruct Hcalc as (ps & Hps & H1 & H2 & H3 & H4 & H5 & H6).
  exists ps. split; [exact Hps|]. split.
  { intros rt. unfold HealthScoreService.calculate.
    now rewrite two_answers_extracted. }
  rewrite H1, H2, H3, H4, H5, H6.
  unfold py_add.
  rewrite (double_comp (0 + low_risk) (0 + 4)) by (now rewrite Hlow4).
  rewrite (double_comp (0 + normal) (0 + 5)) by (now rewrite Hnorm5).
  repeat split; vm_compute; reflexivity.
Qed.

(** ** Extraction of malformed payloads *)

Section Extraction.
Import HealthScoreService.

Lemma extract_raised (rt : runtime) (payload : json) :
  raised (extract_answers_try rt payload) = true -> _extract_answers rt payload = [].
Proof.
  unfold _extract_answers. now destruct (extract_answers_try rt payload).
Qed.

Lemma extract_no_answer_list (rt : runtime) (payload : json) :
  no_answer_list payload -> _extract_answers rt payload = [].
Proof.
  intros (items & -> & [Hnone | (fr & Hfr & Hans)]);
    unfold _extract_answers, extract_answers_try; cbn.
  - now rewrite Hnone.
  - rewrite Hfr. cbn. now rewrite Hans.
Qed.

Lemma extract_degenerate (rt : runtime) (payload : json) :
  degenerate rt payload -> _extract_answers rt payload = [].
Proof.
  intros [H | H]; [now apply extract_raised | now apply extract_no_answer_list].
Qed.

(** An answer map none of whose keys is a question identifier scores zero
    throughout. *)
Lemma calculate_scores_unanswered (lookups : lookup_table) (answers : pydict) :
  (forall uuid, dict_lookup answers (JStr uuid) = None) ->
  exists ps, calculate_scores lookups answers = Ok ps /\ all_zero ps.
Proof.
  intros Hnone.
  assert (Hp : forall pillar_uuids,
             _calculate_pillar_score lookups answers pillar_uuids = Ok 0%Q).
  { intros pillar_uuids. apply unresolved_pillar_zero.
    apply List.Forall_forall. intros uuid _. left. apply Hnone. }
  unfold calculate_scores. rewrite !Hp. cbn.
  eexists. split; [reflexivity|].
  unfold all_zero, pillars_of; cbn.
  split; [|reflexivity].
  repeat (apply List.Forall_cons; [reflexivity|]). apply List.Forall_nil.
Qed.

End Extraction.

(** C4, as stated, fails: the payload whose single answer entry lacks both
    its field and its type is off the expected shape, yet the extractor
    returns the one-entry map from the empty string to the empty string. *)
Lemma malformed_not_always_empty_map : ~ malformed_gives_empty_map.
Proof.
  intros H.
  specialize (H (example_rt (Ok JNull)) bare_entry_payload eq_refl).
  vm_compute in H. discriminate H.
Qed.

(** C4, amended. Extraction is total. On a payload whose traversal raises,
    or which has no [form_response] or no [answers] under it (the empty
    mapping among them), it returns the empty answer map, and [calculate]
    returns the score set with all six pillars and the overall score 0. *)
Theorem degenerate_payload_scores_zero
    (rt : runtime) (lookups : HealthScoreService.lookup_table) (payload : json) :
  degenerate rt payload ->
  HealthScoreService._extract_answers rt payload = [] /\
  exists ps, HealthScoreService.calculate rt lookups payload = Ok ps /\ all_zero ps.
Proof.
  intros Hd. pose proof (extract_degenerate rt payload Hd) as He.
  split; [exact He|].
  unfold HealthScoreService.calculate. rewrite He.
  now apply calculate_scores_unanswered.
Qed.

(** Outside that class the scorer can raise: a choice whose label is a
    number reaches [answer.lower()]. *)
Example numeric_label_raises :
  HealthScoreService._extract_answers (example_rt (Ok JNull)) numeric_label_payload
    = [ (JStr waist_circumference_id, JNum 5) ] /\
  HealthScoreService.calculate (example_rt (Ok JNull)) example_lookups
    numeric_label_payload = Raise AttributeError.
Proof. split; vm_compute; reflexivity. Qed.

(** ** The pipeline *)

Section Pipeline.
Import HealthScoreOrchestrationService.


End Pipeline.


(** ** The notifier and the webhook entry points *)

Section Notifier.

Lemma send_missing_pdf (rt : runtime) (self : EmailService.t)
    (to_email : json) (subject body pdf_path : string)
    (from_email html_content : option string) :
  path_exists rt pdf_path = false ->
  EmailService.success
    (fst (EmailService.send_email_with_pdf rt self to_email subject body pdf_path
            from_email html_content)) = false /\
  snd (EmailService.send_email_with_pdf rt self to_email subject body pdf_path
         from_email html_content) = [].
Proof.
  intros Hmissing. unfold EmailService.send_email_with_pdf.
  destruct (negb (EmailService.str_truthy (EmailService.api_key self))); [now split|].
  rewrite Hmissing. now split.
Qed.

Lemma webhook_email_flag (rt : runtime) (self : WebhookController.t)
    (payload to_email : json) (email_result : EmailService.result) :
  WebhookController.emailResult
    (fst (WebhookController.process_webhook_and_email rt self payload to_email))
    = Some email_result ->
  WebhookController.success
    (fst (WebhookController.process_webhook_and_email rt self payload to_email))
    = EmailService.success email_result.
Proof.
  unfold WebhookController.process_webhook_and_email.
  destruct (WebhookController.save_payload self payload) as [filename|e];
    [|intros [=]].
  destruct (JsonProcessingService.success _); [|intros [=]].
  destruct (JsonProcessingService.data _) as [d|]; [|intros [=]].
  destruct (negb (py_truthy _)); [intros [=]|].
  destruct (py_truthy (JStr _) && path_exists rt _); [|intros [=]].
  destruct (EmailService.send_email_with_pdf _ _ _ _ _ _ _ _) as [er sent].
  cbn. now intros [= <-].
Qed.

Lemma webhook_email_sends (rt : runtime) (self : WebhookController.t)
    (payload to_email : json) (filename : string)
    (d : HealthScoreOrchestrationService.result_data) :
  WebhookController.save_payload self payload = Ok filename ->
  JsonProcessingService.success
    (JsonProcessingService.process_json rt
       (WebhookController.json_processing_service self) (json_dumps rt payload)) = true ->
  JsonProcessingService.data
    (JsonProcessingService.process_json rt
       (WebhookController.json_processing_service self) (json_dumps rt payload)) = Some d ->
  py_truthy (if py_truthy to_email then to_email
             else WebhookController._extract_email_from_payload payload) = true ->
  HealthScoreOrchestrationService.pdf_report_path d <> "" ->
  path_exists rt (HealthScoreOrchestrationService.pdf_report_path d) = true ->
  exists subject body,
    let notified :=
      EmailService.send_email_with_pdf rt (WebhookController.email_service self)
        (if py_truthy to_email then to_email
         else WebhookController._extract_email_from_payload payload)
        subject body (HealthScoreOrchestrationService.pdf_report_path d) None None in
    WebhookController.emailResult
      (fst (WebhookController.process_webhook_and_email rt self payload to_email))
      = Some (fst notified) /\
    WebhookController.success
      (fst (WebhookController.process_webhook_and_email rt self payload to_email))
      = EmailService.success (fst notified) /\
    snd (WebhookController.process_webhook_and_email rt self payload to_email)
      = snd notified.
Proof.
  intros Hsave Hs Hd Hrec Hne Hex.
  unfold WebhookController.process_webhook_and_email.
  rewrite Hsave, Hs, Hd, Hrec, Hex. cbn [negb py_truthy].
  destruct (String.eqb_spec (HealthScoreOrchestrationService.pdf_report_path d) "")
    as [E|_]; [contradiction|]. cbn [negb andb].
  match goal with
  | |- context [EmailService.send_email_with_pdf _ _ _ ?sub ?bod _ _ _] =>
      exists sub, bod
  end.
  cbn zeta.
  destruct (EmailService.send_email_with_pdf _ _ _ _ _ _ _ _) as [er sent].
  cbn. auto.
Qed.

Lemma webhook_email_unsent (rt : runtime) (self : WebhookController.t)
    (payload to_email : json) :
  WebhookController.emailResult
    (fst (WebhookController.process_webhook_and_email rt self payload to_email)) = None ->
  WebhookController.success
    (fst (WebhookController.process_webhook_and_email rt self payload to_email)) = false /\
  snd (WebhookController.process_webhook_and_email rt self payload to_email) = [].
Proof.
  unfold WebhookController.process_webhook_and_email.
  destruct (WebhookController.save_payload self payload) as [filename|e]; [|auto].
  destruct (JsonProcessingService.success _); [|auto].
  destruct (JsonProcessingService.data _) as [d|]; [|auto].
  destruct (negb (py_truthy _)); [auto|].
  destruct (py_truthy (JStr _) && path_exists rt _); [|auto].
  destruct (EmailService.send_email_with_pdf _ _ _ _ _ _ _ _) as [er sent].
  cbn. intros [=].
Qed.

End Notifier.

(** C7. Asked to send a document that is not on disk, the email operation
    returns a failure and passes no message to the mail provider. The
    webhook-and-email entry point, once the payload is saved, processed with
    success, a recipient is known and the document is on disk, calls the
    email operation with that recipient and document and answers with the
    result it returned: the success flag of the response is the success
    flag of that result, and the messages that reached the provider are
    those of that call. In every run a reported email result carries the
    response's success flag, and a response without one is a failure that
    sent nothing. *)
Theorem missing_pdf_fails_without_provider
    (rt : runtime) (self : EmailService.t)
    (to_email : json) (subject body pdf_path : string)
    (from_email html_content : option string) :
  path_exists rt pdf_path = false ->
  (EmailService.success
     (fst (EmailService.send_email_with_pdf rt self to_email subject body pdf_path
             from_email html_content)) = false /\
   snd (EmailService.send_email_with_pdf rt self to_email subject body pdf_path
          from_email html_content) = []) /\
  (forall (controller : WebhookController.t) (payload recipient : json)
          (filename : string) (d : HealthScoreOrchestrationService.result_data),
     WebhookController.save_payload controller payload = Ok filename ->
     JsonProcessingService.success
       (JsonProcessingService.process_json rt
          (WebhookController.json_processing_service controller)
          (json_dumps rt payload)) = true ->
     JsonProcessingService.data
       (JsonProcessingService.process_json rt
          (WebhookController.json_processing_service controller)
          (json_dumps rt payload)) = Some d ->
     py_truthy (if py_truthy recipient then recipient
                else WebhookController._extract_email_from_payload payload) = true ->
     HealthScoreOrchestrationService.pdf_report_path d <> "" ->
     path_exists rt (HealthScoreOrchestrationService.pdf_report_path d) = true ->
     exists subject' body',
       let notified :=
         EmailService.send_email_with_pdf rt (WebhookController.email_service controller)
           (if py_truthy recipient then recipient
            else WebhookController._extract_email_from_payload payload)
           subject' body' (HealthScoreOrchestrationService.pdf_report_path d)
           None None in
       WebhookController.emailResult
         (fst (WebhookController.process_webhook_and_email rt controller payload recipient))
         = Some (fst notified) /\
       WebhookController.success
         (fst (WebhookController.process_webhook_and_email rt controller payload recipient))
         = EmailService.success (fst notified) /\
       snd (WebhookController.process_webhook_and_email rt controller payload recipient)
         = snd notified) /\
  (forall (controller : WebhookController.t) (payload recipient : json)
          (email_result : EmailService.result),
     WebhookController.emailResult
       (fst (WebhookController.process_webhook_and_email rt controller payload recipient))
       = Some email_result ->
     WebhookController.success
       (fst (WebhookController.process_webhook_and_email rt controller payload recipient))
       = EmailService.success email_result) /\
  (forall (controller : WebhookController.t) (payload recipient : json),
     WebhookController.emailResult
       (fst (WebhookController.process_webhook_and_email rt controller payload recipient))
       = None ->
     WebhookController.success
       (fst (WebhookController.process_webhook_and_email rt controller payload recipient))
       = false /\
     snd (WebhookController.process_webhook_and_email rt controller payload recipient)
       = []).
Proof.
  intros Hmissing. split; [now apply send_missing_pdf|].
  split.
  { intros controller payload recipient filename d H1 H2 H3 H4 H5 H6.
    exact (webhook_email_sends rt controller payload recipient filename d
             H1 H2 H3 H4 H5 H6). }
  split; [intros controller payload recipient email_result; apply webhook_email_flag|].
  intros controller payload recipient. apply webhook_email_unsent.
Qed.

(** C10. Once the payload is saved, the plain webhook entry point answers
    with top-level success flag true whatever the processing result says;
    that result, with its own flag, is only the nested [processingResult]. *)
Theorem webhook_success_ignores_processing
    (rt : runtime) (self : WebhookController.t) (payload : json) (filename : string) :
  WebhookController.save_payload self payload = Ok filename ->
  WebhookController.success (WebhookController.process_webhook rt self payload) = true /\
  WebhookController.processingResult (WebhookController.process_webhook rt self payload) =
    Some (JsonProcessingService.process_json rt
            (WebhookController.json_processing_service self) (json_dumps rt payload)).
Proof.
  intros Hsaved. unfold WebhookController.process_webhook. rewrite Hsaved. now split.
Qed.

(** The two flags do differ: with a document renderer that raises, the
    nested result reports failure under a top-level success. *)
Example webhook_success_over_failed_processing :
  let r := WebhookController.process_webhook
             (example_rt (Ok two_answers_payload)) example_controller two_answers_payload in
  WebhookController.success r = true /\
  option_map JsonProcessingService.success (WebhookController.processingResult r)
    = Some false.
Proof. vm_compute. now split. Qed.

(** ** The properties at concrete inputs *)

Lemma example_lookups_in_range : table_in_range example_lookups.
Proof.
  unfold table_in_range, example_lookups.
  apply map_Forall_insert_2; [|apply map_Forall_insert_2; [|apply map_Forall_empty]].
  - repeat (apply List.Forall_cons; [split; unfold Qle; cbn; lia|]). apply List.Forall_nil.
  - repeat (apply List.Forall_cons; [split; unfold Qle; cbn; lia|]). apply List.Forall_nil.
Qed.

Lemma two_answers_string_valued : string_valued two_answers.
Proof.
  intros k v. unfold two_answers. cbn [dict_lookup].
  case (py_eqb (JStr waist_circumference_id) k).
  - intros [= <-]. now exists "Low risk".
  - case (py_eqb (JStr blood_pressure_sys_id) k).
    + intros [= <-]. now exists "Normal".
    + intros [=].
Qed.

Lemma calculate_bounded_and_mean_witness :
  table_in_range example_lookups /\
  string_valued two_answers /\
  exists ps,
    HealthScoreService.calculate_scores example_lookups two_answers = Ok ps /\
    well_scored ps.
Proof.
  split; [exact example_lookups_in_range|].
  split; [exact two_answers_string_valued|].
  exact (proj1 (proj2 (calculate_bounded_and_mean example_lookups two_answers
                         example_lookups_in_range))
           two_answers_string_valued).
Defined.


Lemma sleep_pillar_unresolved :
  Forall (unresolved example_lookups two_answers) HealthScoreService._pillar3.
Proof.
  repeat (apply List.Forall_cons; [left; reflexivity|]). apply List.Forall_nil.
Qed.

Lemma unresolved_pillar_scores_zero_witness :
  Forall (unresolved example_lookups two_answers) HealthScoreService._pillar3 /\
  HealthScoreService._calculate_pillar_score example_lookups two_answers
    HealthScoreService._pillar3 = Ok 0%Q.
Proof.
  split; [exact sleep_pillar_unresolved|].
  exact (proj1 (unresolved_pillar_scores_zero example_lookups two_answers
                  HealthScoreService._pillar3 sleep_pillar_unresolved)).
Defined.

Lemma example_low_risk_and_normal_witness :
  exists ps,
    HealthScoreService.calculate_scores example_lookups two_answers = Ok ps /\
    (muscles_and_visceral_fat ps == 80)%Q /\
    (cardio_vascular ps == 100)%Q.
Proof.
  destruct (example_low_risk_and_normal example_lookups
              [("Low risk", 4%Q); ("High risk", 1%Q)] [("Normal", 5%Q)] 4%Q 5%Q
              eq_refl eq_refl (Qeq_refl 4) eq_refl eq_refl (Qeq_refl 5))
    as (ps & Hps & _ & H1 & H2 & _).
  exists ps. split; [exact Hps|]. split; [exact H1|exact H2].
Defined.

Lemma empty_answer_never_skipped_witness :
  dict_lookup empty_answer (JStr waist_circumference_id) = Some (JStr "") /\
  exists w,
    HealthScoreService.question_score trailing_empty_key_lookups empty_answer
      waist_circumference_id = Ok (Some w).
Proof.
  split; [reflexivity|].
  destruct (empty_answer_never_skipped trailing_empty_key_lookups empty_answer
              waist_circumference_id "Low" 1%Q [("", 2%Q)] eq_refl eq_refl)
    as (w & Hw & _).
  exists w. exact Hw.
Defined.

Lemma empty_mapping_degenerate : degenerate (example_rt (Ok JNull)) (JObj []).
Proof. right. exists []. split; [reflexivity|]. left. reflexivity. Qed.

Lemma degenerate_payload_scores_zero_witness :
  degenerate (example_rt (Ok JNull)) (JObj []) /\
  HealthScoreService._extract_answers (example_rt (Ok JNull)) (JObj []) = [] /\
  exists ps,
    HealthScoreService.calculate (example_rt (Ok JNull)) example_lookups (JObj []) = Ok ps /\
    all_zero ps.
Proof.
  split; [exact empty_mapping_degenerate|].
  exact (degenerate_payload_scores_zero (example_rt (Ok JNull)) example_lookups (JObj [])
           empty_mapping_degenerate).
Defined.


Lemma missing_pdf_fails_without_provider_witness :
  path_exists report_only_rt "reports/missing.pdf" = false /\
  snd (EmailService.send_email_with_pdf report_only_rt accepting_mailer
         (JStr "ada@example.org") "Your Health Score Report" "Hello"
         "reports/missing.pdf" None None) = [] /\
  exists subject body,
    WebhookController.success
      (fst (WebhookController.process_webhook_and_email report_only_rt working_controller
              two_answers_payload (JStr "ada@example.org")))
    = EmailService.success
        (fst (EmailService.send_email_with_pdf report_only_rt accepting_mailer
                (JStr "ada@example.org") subject body "reports/report.pdf" None None)) /\
    length (snd (WebhookController.process_webhook_and_email report_only_rt
                   working_controller two_answers_payload (JStr "ada@example.org")))
    = 1%nat.
Proof.
  pose proof (missing_pdf_fails_without_provider report_only_rt accepting_mailer
                (JStr "ada@example.org") "Your Health Score Report" "Hello"
                "reports/missing.pdf" None None eq_refl) as [[_ Hnone] [Hsends _]].
  split; [reflexivity|]. split; [exact Hnone|].
  edestruct (Hsends working_controller two_answers_payload (JStr "ada@example.org"))
    as (subject & body & _ & Hflag & Hsent).
  - reflexivity.
  - vm_compute; reflexivity.
  - vm_compute; reflexivity.
  - reflexivity.
  - intros H; discriminate H.
  - reflexivity.
  - exists subject, body. split; [exact Hflag|].
    vm_compute; reflexivity.
Defined.

Lemma webhook_success_ignores_processing_witness :
  WebhookController.save_payload example_controller two_answers_payload
    = Ok "Webhook_20240101_000000_ab.json" /\
  WebhookController.success
    (WebhookController.process_webhook (example_rt (Ok two_answers_payload))
       example_controller two_answers_payload) = true.
Proof.
  split; [reflexivity|].
  exact (proj1 (webhook_success_ignores_processing (example_rt (Ok two_answers_payload))
                  example_controller two_answers_payload
                  "Webhook_20240101_000000_ab.json" eq_refl)).
Defined.

(* ===================================================================== *)
(** * Further properties of the code                                      *)
(* ===================================================================== *)

(** ** The error monad, continued *)


Lemma raised_bind_all {A B : Type} (m : exn A) (k : A -> exn B) :
  (forall a, raised (k a) = true) -> raised (x ← m; k x) = true.
Proof. intros H. destruct m as [a|e]; cbn; [apply H|reflexivity]. Qed.

(** ** The answer extractor *)

Section Extractor.
Import HealthScoreService.
Variable rt : runtime.

Lemma extract_loop_step (answer : json) (rest : list json) (acc : pydict) :
  extract_loop rt (answer :: rest) acc =
  (r ← entry_ref answer; v ← entry_value rt answer;
   m ← dict_setitem acc r v; extract_loop rt rest m).
Proof.
  cbn [extract_loop]. unfold entry_ref, entry_value.
  destruct (py_get answer "field" (JObj [])) as [field|e]; cbn; [|reflexivity].
  destruct (py_get field "ref" (JStr "")) as [r|e]; cbn; [|reflexivity].
  destruct (py_get answer "type" (JStr "")) as [ty|e]; cbn; reflexivity.
Qed.

Lemma extract_loop_app (xs ys : list json) : forall acc : pydict,
  extract_loop rt (xs ++ ys) acc = (m ← extract_loop rt xs acc; extract_loop rt ys m).
Proof.
  induction xs as [|x xs IH]; intros acc; [reflexivity|].
  rewrite <- app_comm_cons, !extract_loop_step.
  destruct (entry_ref x) as [r|e]; cbn; [|reflexivity].
  destruct (entry_value rt x) as [v|e]; cbn; [|reflexivity].
  destruct (dict_setitem acc r v) as [m|e]; cbn; [|reflexivity].
  apply IH.
Qed.

Lemma entry_ref_not_object (answer : json) :
  is_object answer = false -> raised (entry_ref answer) = true.
Proof. now destruct answer. Qed.

Lemma extract_loop_bad_entry (items : list json) (bad : json) : forall acc : pydict,
  In bad items -> is_object bad = false -> raised (extract_loop rt items acc) = true.
Proof.
  induction items as [|x items IH]; intros acc Hin Hbad; [destruct Hin|].
  rewrite extract_loop_step.
  destruct Hin as [-> | Hin].
  - pose proof (entry_ref_not_object bad Hbad) as Hr.
    now destruct (entry_ref bad).
  - apply raised_bind_all; intros r. apply raised_bind_all; intros v.
    apply raised_bind_all; intros m. now apply IH.
Qed.

Lemma py_eqb_str (k : json) (r : string) : py_eqb k (JStr r) = true <-> k = JStr r.
Proof.
  destruct k as [| [|] | q | s | l | l]; cbn; try (split; [discriminate|discriminate]).
  rewrite String.eqb_eq. split; congruence.
Qed.

Lemma dict_lookup_store_eq (d : pydict) (r : string) (v : json) :
  dict_lookup (dict_store d (JStr r) v) (JStr r) = Some v.
Proof.
  induction d as [|[k' v'] d IH]; cbn [dict_store dict_lookup].
  - assert (E : py_eqb (JStr r) (JStr r) = true) by now apply py_eqb_str.
    now rewrite E.
  - destruct (py_eqb k' (JStr r)) eqn:E; cbn [dict_lookup]; now rewrite E.
Qed.

Lemma dict_lookup_store_ne (d : pydict) (k v : json) (r : string) :
  k <> JStr r -> dict_lookup (dict_store d k v) (JStr r) = dict_lookup d (JStr r).
Proof.
  intros Hne. induction d as [|[k' v'] d IH]; cbn [dict_store dict_lookup].
  - destruct (py_eqb k (JStr r)) eqn:E; [|reflexivity].
    apply py_eqb_str in E. contradiction.
  - destruct (py_eqb k' k) eqn:Ek; cbn [dict_lookup].
    + destruct (py_eqb k' (JStr r)) eqn:Er; [|reflexivity].
      apply py_eqb_str in Er. subst k'. exfalso. apply Hne.
      destruct k as [| [|] | q | s | l | l]; cbn in Ek; try discriminate.
      apply String.eqb_eq in Ek. congruence.
    + now rewrite IH.
Qed.

(** Later entries for other fields leave the value of [r] alone. *)
Lemma extract_loop_keeps (r : string) (v : json) (items : list json) :
  forall acc m : pydict,
  Forall (fun a => entry_ref a <> Ok (JStr r)) items ->
  dict_lookup acc (JStr r) = Some v ->
  extract_loop rt items acc = Ok m ->
  dict_lookup m (JStr r) = Some v.
Proof.
  induction items as [|x items IH]; intros acc m Hall Hacc Hloop.
  - cbn in Hloop. now injection Hloop as <-.
  - inversion Hall as [|? ? Hx Hrest]; subst.
    rewrite extract_loop_step in Hloop.
    apply bind_Ok_inv in Hloop as (r' & Hr' & Hloop).
    apply bind_Ok_inv in Hloop as (v' & Hv' & Hloop).
    apply bind_Ok_inv in Hloop as (m' & Hm' & Hloop).
    apply (IH m' m Hrest); [|exact Hloop].
    unfold dict_setitem in Hm'. destruct (py_hashable r'); [|discriminate].
    injection Hm' as <-. rewrite dict_lookup_store_ne; [assumption|].
    intros ->. now apply Hx.
Qed.

End Extractor.

(** X1. The extractor keeps nothing of a list with one bad entry: if any
    item of the answer list is not an object, the answer map is empty,
    whatever the well-formed entries around it say. *)
Theorem one_bad_entry_empties_the_map
    (rt : runtime) (payload : json) (items : list json) (bad : json) :
  answers_of payload = Ok (JArr items) ->
  In bad items ->
  is_object bad = false ->
  HealthScoreService._extract_answers rt payload = [].
Proof.
  intros Hans Hin Hbad. apply extract_raised.
  unfold HealthScoreService.extract_answers_try.
  unfold answers_of in Hans.
  destruct (py_get payload "form_response" (JObj [])) as [fr|e]; [|reflexivity].
  cbn in Hans |- *. rewrite Hans. cbn.
  now apply (extract_loop_bad_entry rt items bad).
Qed.

(** X2. The last entry for a field wins: when the traversal succeeds, the
    answer map sends a field reference to the value of the last entry that
    carries this reference. *)
Theorem last_entry_for_a_field_wins
    (rt : runtime) (payload : json) (before after : list json) (answer : json)
    (r : string) (v : json) (answer_map : pydict) :
  answers_of payload = Ok (JArr (before ++ answer :: after)) ->
  HealthScoreService.extract_answers_try rt payload = Ok answer_map ->
  entry_ref answer = Ok (JStr r) ->
  entry_value rt answer = Ok v ->
  Forall (fun a => entry_ref a <> Ok (JStr r)) after ->
  HealthScoreService._extract_answers rt payload = answer_map /\
  dict_lookup answer_map (JStr r) = Some v.
Proof.
  intros Hans Htry Href Hval Hafter.
  split; [unfold HealthScoreService._extract_answers; now rewrite Htry|].
  unfold HealthScoreService.extract_answers_try in Htry.
  unfold answers_of in Hans.
  destruct (py_get payload "form_response" (JObj [])) as [fr|e]; [|discriminate].
  cbn in Hans, Htry. rewrite Hans in Htry. cbn in Htry.
  rewrite extract_loop_app in Htry.
  apply bind_Ok_inv in Htry as (m0 & _ & Htry).
  rewrite extract_loop_step, Href, Hval in Htry. cbn in Htry.
  eapply extract_loop_keeps; [exact Hafter| |exact Htry].
  apply dict_lookup_store_eq.
Qed.

(** ** The scorer, continued *)

Section ScorerErrors.
Import HealthScoreService.




Lemma pillar_loop_app (lookups : lookup_table) (answers : pydict)
    (xs ys : list string) : forall scores : list Q,
  pillar_loop lookups answers (xs ++ ys) scores =
  (s ← pillar_loop lookups answers xs scores; pillar_loop lookups answers ys s).
Proof.
  induction xs as [|x xs IH]; intros scores; [reflexivity|].
  rewrite <- app_comm_cons. cbn [pillar_loop].
  destruct (question_score lookups answers x) as [s|e]; cbn; [apply IH|reflexivity].
Qed.

Lemma find_skip {A : Type} (f : A -> bool) (xs ys : list A) (y : A) :
  Forall (fun x => f x = false) xs ->
  f y = true -> find f (xs ++ y :: ys) = Some y.
Proof.
  intros Hall Hy. induction Hall as [|x xs Hx _ IH]; cbn; [now rewrite Hy|].
  now rewrite Hx.
Qed.

Lemma alist_lookup_skip {V : Type} (k : string) (v : V) (before after : list (string * V)) :
  Forall (fun kv => fst kv <> k) before ->
  alist_lookup k (before ++ (k, v) :: after) = Some v.
Proof.
  intros Hall. induction Hall as [|[k' v'] before Hk _ IH]; cbn.
  - now rewrite String.eqb_refl.
  - cbn in Hk. destruct (String.eqb_spec k k') as [E|_]; [congruence|exact IH].
Qed.


Lemma prefix_refl (s : string) : String.prefix s s = true.
Proof.
  induction s as [|c s IH]; cbn; [reflexivity|].
  destruct (Ascii.ascii_dec c c); [exact IH|congruence].
Qed.

Lemma contains_refl (s : string) : contains s s = true.
Proof. destruct s; cbn [contains]; now rewrite prefix_refl. Qed.

End ScorerErrors.


(** X4. A question that contributes nothing does not dilute the mean: the
    pillar scores the same with and without it. *)
Theorem skipped_question_leaves_the_score
    (lookups : HealthScoreService.lookup_table) (answers : pydict)
    (before after : list string) (uuid : string) :
  HealthScoreService.question_score lookups answers uuid = Ok None ->
  HealthScoreService._calculate_pillar_score lookups answers (before ++ uuid :: after) =
  HealthScoreService._calculate_pillar_score lookups answers (before ++ after).
Proof.
  intros Hskip. unfold HealthScoreService._calculate_pillar_score.
  rewrite !pillar_loop_app. cbn [HealthScoreService.pillar_loop]. now rewrite Hskip.
Qed.

Lemma first_fuzzy_key_contributes_aux
    (lookups : HealthScoreService.lookup_table) (answers : pydict)
    (uuid a k : string) (v : Q) (before after : list (string * Q)) :
  dict_lookup answers (JStr uuid) = Some (JStr a) ->
  lookups !! uuid = Some (before ++ (k, v) :: after) ->
  alist_lookup a (before ++ (k, v) :: after) = None ->
  Forall (fun kv => fuzzy_hit a (fst kv) = false) before ->
  fuzzy_hit a k = true ->
  k <> "" ->
  HealthScoreService.question_score lookups answers uuid = Ok (Some v).
Proof.
  intros Ha Hm Hx Hbefore Hk Hne.
  rewrite (question_score_str _ _ _ _ _ Ha Hm), resolve_answer_str, Hx.
  rewrite map_app. cbn [map fst].
  rewrite (find_skip (fuzzy_hit a) (map fst before) (map fst after) k).
  - destruct (String.eqb_spec k "") as [E|_]; [contradiction|].
    rewrite alist_lookup_skip; [reflexivity|].
    eapply Forall_impl; [exact Hbefore|]. intros kv Hkv E.
    cbn beta in Hkv. rewrite E in Hkv. congruence.
  - apply Forall_map. exact Hbefore.
  - exact Hk.
Qed.

(** X5. The fuzzy stage as the code runs it: when the answer is no key of
    the mapping, the first stored key that passes the substring test in
    either direction contributes its sub-score, provided this key is not
    the empty string. *)
Theorem first_fuzzy_key_contributes
    (lookups : HealthScoreService.lookup_table) (answers : pydict)
    (uuid a k : string) (v : Q) (before after : list (string * Q)) :
  dict_lookup answers (JStr uuid) = Some (JStr a) ->
  lookups !! uuid = Some (before ++ (k, v) :: after) ->
  alist_lookup a (before ++ (k, v) :: after) = None ->
  Forall (fun kv => fuzzy_hit a (fst kv) = false) before ->
  fuzzy_hit a k = true ->
  k <> "" ->
  HealthScoreService.question_score lookups answers uuid = Ok (Some v).
Proof. apply first_fuzzy_key_contributes_aux. Qed.

(** X6. With no empty key in the mapping, a string answer is skipped exactly
    when it is no key and no key passes the substring test. *)
Theorem skipped_iff_no_match
    (lookups : HealthScoreService.lookup_table) (answers : pydict)
    (uuid a : string) (mapping : list (string * Q)) :
  dict_lookup answers (JStr uuid) = Some (JStr a) ->
  lookups !! uuid = Some mapping ->
  Forall (fun kv => fst kv <> "") mapping ->
  HealthScoreService.question_score lookups answers uuid = Ok None <->
  alist_lookup a mapping = None /\
  Forall (fun key => fuzzy_hit a key = false) (map fst mapping).
Proof.
  intros Ha Hm Hkeys. split.
  - rewrite (question_score_str _ _ _ _ _ Ha Hm), resolve_answer_str.
    destruct (alist_lookup a mapping) as [v|]; [intros [=]|].
    destruct (find (fuzzy_hit a) (map fst mapping)) as [key|] eqn:Hf.
    + pose proof (find_some _ _ Hf) as [Hin _].
      destruct (alist_lookup_key key mapping Hin) as [v Hv].
      destruct (String.eqb_spec key "") as [->|_]; [|rewrite Hv; intros [=]].
      exfalso. apply in_map_iff in Hin as (kv & Hfst & Hkv).
      rewrite List.Forall_forall in Hkeys. exact (Hkeys kv Hkv Hfst).
    + intros _. split; [reflexivity|].
      apply List.Forall_forall. intros key Hin. exact (find_none _ _ Hf key Hin).
  - intros [Hx Hnone]. apply question_score_unresolved.
    right. right. exists a, mapping. auto.
Qed.

(** X7. The fuzzy stage ignores letter case: an answer that is no key but
    equals the first stored key up to the case of its letters gets that
    key's sub-score. *)
Theorem answer_matches_first_key_up_to_case
    (lookups : HealthScoreService.lookup_table) (answers : pydict)
    (uuid a k : string) (v : Q) (rest : list (string * Q)) :
  dict_lookup answers (JStr uuid) = Some (JStr a) ->
  lookups !! uuid = Some ((k, v) :: rest) ->
  alist_lookup a ((k, v) :: rest) = None ->
  lower a = lower k ->
  HealthScoreService.question_score lookups answers uuid = Ok (Some v).
Proof.
  intros Ha Hm Hx Hcase.
  assert (Hne : k <> "").
  { intros ->. destruct a; [|discriminate Hcase]. cbn in Hx. discriminate Hx. }
  apply (first_fuzzy_key_contributes_aux lookups answers uuid a k v [] rest);
    try assumption; [constructor|].
  unfold fuzzy_hit. rewrite Hcase. now rewrite contains_refl.
Qed.

(** ** Rounding, continued *)

(** X8. Normalization is monotone: a higher raw pillar score never yields a
    lower normalized score. *)
Theorem normalize_score_monotone (raw1 raw2 : Q) :
  (raw1 <= raw2)%Q ->
  (HealthScoreService._normalize_score raw1 <= HealthScoreService._normalize_score raw2)%Q.
Proof.
  intros H. unfold HealthScoreService._normalize_score, py_mul.
  apply round1_mono, double_mono. lra.
Qed.

(** ** Processing a JSON document *)

Section Processing.
Import JsonProcessingService.

Lemma process_json_cases (rt : runtime) (self : t) (json_content : string) :
  (exists payload ps chart pdf,
     json_loads rt json_content = Ok payload /\
     HealthScoreService.calculate rt (lookups self) payload = Ok ps /\
     Orch.generate_chart (orchestration_service self) ps = Ok chart /\
     Orch.generate_pdf_report (orchestration_service self) ps chart
       (_extract_user_name payload) = Ok pdf /\
     process_json rt self json_content =
       Result true "JSON processed successfully"
         (Some (Orch.ResultData chart pdf (_extract_user_name payload) ps))) \/
  (success (process_json rt self json_content) = false /\
   data (process_json rt self json_content) = None /\
   ~ exists payload ps chart pdf,
       json_loads rt json_content = Ok payload /\
       HealthScoreService.calculate rt (lookups self) payload = Ok ps /\
       Orch.generate_chart (orchestration_service self) ps = Ok chart /\
       Orch.generate_pdf_report (orchestration_service self) ps chart
         (_extract_user_name payload) = Ok pdf).
Proof.
  unfold process_json, Orch.process_health_scores, mbind, exn_bind, bind.
  destruct (json_loads rt json_content) as [payload|e] eqn:Hp.
  2:{ right. repeat split. intros (? & ? & ? & ? & [=] & _). }
  destruct (HealthScoreService.calculate rt (lookups self) payload) as [ps|e] eqn:Hc.
  2:{ right. repeat split. intros (? & ? & ? & ? & [= <-] & H & _). congruence. }
  destruct (Orch.generate_chart (orchestration_service self) ps) as [chart|e] eqn:Hg.
  2:{ right. repeat split. intros (? & ? & ? & ? & [= <-] & H1 & H2 & _). congruence. }
  destruct (Orch.generate_pdf_report (orchestration_service self) ps chart
              (_extract_user_name payload)) as [pdf|e] eqn:Hr.
  2:{ right. repeat split.
      intros (? & ? & ? & ? & [= <-] & H1 & H2 & H3).
      rewrite Hc in H1. injection H1 as <-.
      rewrite Hg in H2. injection H2 as <-. congruence. }
  left. exists payload, ps, chart, pdf. auto.
Qed.

End Processing.

(** X9. [process_json] reports success exactly when the document parses,
    the scorer returns, and both renderers return, the document renderer
    being given the chart renderer's path; and whenever these four stages
    return, the result is the success result whose data holds the two
    paths, the extracted user name and the computed scores. *)
Theorem processing_succeeds_iff_all_stages
    (rt : runtime) (self : JsonProcessingService.t) (json_content : string) :
  (JsonProcessingService.success
     (JsonProcessingService.process_json rt self json_content) = true <->
   exists payload ps chart pdf,
     json_loads rt json_content = Ok payload /\
     HealthScoreService.calculate rt (JsonProcessingService.lookups self) payload = Ok ps /\
     HealthScoreOrchestrationService.generate_chart
       (JsonProcessingService.orchestration_service self) ps = Ok chart /\
     HealthScoreOrchestrationService.generate_pdf_report
       (JsonProcessingService.orchestration_service self) ps chart
       (JsonProcessingService._extract_user_name payload) = Ok pdf) /\
  (forall payload ps chart pdf,
     json_loads rt json_content = Ok payload ->
     HealthScoreService.calculate rt (JsonProcessingService.lookups self) payload = Ok ps ->
     HealthScoreOrchestrationService.generate_chart
       (JsonProcessingService.orchestration_service self) ps = Ok chart ->
     HealthScoreOrchestrationService.generate_pdf_report
       (JsonProcessingService.orchestration_service self) ps chart
       (JsonProcessingService._extract_user_name payload) = Ok pdf ->
     JsonProcessingService.process_json rt self json_content =
     JsonProcessingService.Result true "JSON processed successfully"
       (Some (HealthScoreOrchestrationService.ResultData chart pdf
                (JsonProcessingService._extract_user_name payload) ps))).
Proof.
  destruct (process_json_cases rt self json_content)
    as [(payload & ps & chart & pdf & H1 & H2 & H3 & H4 & Hr) | (Hs & Hd & Hno)].
  - split.
    + rewrite Hr. split; [intros _|reflexivity].
      exists payload, ps, chart, pdf. auto.
    + intros payload' ps' chart' pdf' G1 G2 G3 G4.
      rewrite H1 in G1. injection G1 as <-.
      rewrite H2 in G2. injection G2 as <-.
      rewrite H3 in G3. injection G3 as <-.
      rewrite H4 in G4. injection G4 as <-.
      exact Hr.
  - split.
    + rewrite Hs. split; [discriminate|].
      intros H. exfalso. exact (Hno H).
    + intros payload ps chart pdf G1 G2 G3 G4.
      exfalso. apply Hno. exists payload, ps, chart, pdf. auto.
Qed.

(** X10. The success flag and the data of a Processing Result agree: the
    data is present exactly when the flag is true. *)
Theorem processing_data_iff_success
    (rt : runtime) (self : JsonProcessingService.t) (json_content : string) :
  JsonProcessingService.success
    (JsonProcessingService.process_json rt self json_content) = true <->
  JsonProcessingService.data
    (JsonProcessingService.process_json rt self json_content) <> None.
Proof.
  destruct (process_json_cases rt self json_content)
    as [(payload & ps & chart & pdf & _ & _ & _ & _ & Hr) | (Hs & Hd & _)].
  - rewrite Hr. cbn. split; [discriminate|reflexivity].
  - rewrite Hs, Hd. split; [discriminate|congruence].
Qed.

(** X11. With every sub-score of the lookup table in [0,5], the scores a
    successful Processing Result carries satisfy the invariant of a Pillar
    Score Set. *)
Theorem processed_scores_well_scored
    (rt : runtime) (self : JsonProcessingService.t) (json_content : string)
    (d : HealthScoreOrchestrationService.result_data) :
  table_in_range (JsonProcessingService.lookups self) ->
  JsonProcessingService.data
    (JsonProcessingService.process_json rt self json_content) = Some d ->
  well_scored (HealthScoreOrchestrationService.pillar_scores d).
Proof.
  intros Htab Hd.
  destruct (process_json_cases rt self json_content)
    as [(payload & ps & chart & pdf & _ & Hc & _ & _ & Hr) | (_ & Hnone & _)].
  - rewrite Hr in Hd. cbn in Hd. injection Hd as <-. cbn.
    unfold HealthScoreService.calculate in Hc.
    eapply calculate_scores_well_scored; eauto.
  - congruence.
Qed.

(** ** The user name *)

Section UserName.
Import JsonProcessingService.

Lemma user_name_loop_step (answer : json) (rest : list json) :
  user_name_loop (answer :: rest) =
  (r ← entry_ref answer;
   if py_eqb r (JStr "name_field_ref")
   then py_get answer "text" (JStr "User")
   else user_name_loop rest).
Proof.
  cbn [user_name_loop]. unfold entry_ref.
  destruct (py_get answer "field" (JObj [])) as [field|e]; cbn; reflexivity.
Qed.

Lemma user_name_loop_default (items : list json) (v : json) :
  Forall (fun a => entry_ref a <> Ok (JStr "name_field_ref")) items ->
  user_name_loop items = Ok v -> v = JStr "User".
Proof.
  induction 1 as [|a items Ha _ IH]; [now intros [= <-]|].
  rewrite user_name_loop_step. intros H.
  apply bind_Ok_inv in H as (r & Hr & H).
  destruct (py_eqb r (JStr "name_field_ref")) eqn:E; [|auto].
  apply py_eqb_str in E. congruence.
Qed.

Lemma user_name_loop_first (before after : list json) (entry : json) :
  Forall (fun a => exists r, entry_ref a = Ok r /\ r <> JStr "name_field_ref") before ->
  entry_ref entry = Ok (JStr "name_field_ref") ->
  user_name_loop (before ++ entry :: after) = py_get entry "text" (JStr "User").
Proof.
  intros Hbefore Hentry.
  induction Hbefore as [|a before (r & Hr & Hne) _ IH].
  - cbn [app]. rewrite user_name_loop_step, Hentry. reflexivity.
  - rewrite <- app_comm_cons, user_name_loop_step, Hr. cbn.
    destruct (py_eqb r (JStr "name_field_ref")) eqn:E; [|exact IH].
    apply py_eqb_str in E. contradiction.
Qed.

Lemma extract_user_name_unfold (payload : json) (items : list json) :
  answers_of payload = Ok (JArr items) ->
  _extract_user_name payload =
  match user_name_loop items with Ok name => name | Raise _ => JStr "User" end.
Proof.
  unfold answers_of, _extract_user_name. intros H.
  destruct (py_get payload "form_response" (JObj [])) as [fr|e]; [|discriminate].
  cbn in H |- *. now rewrite H.
Qed.

End UserName.

(** X12. Without an answer entry for the name field the user name is the
    placeholder "User", also when an entry of the list is malformed. *)
Theorem user_name_defaults_to_User (payload : json) (items : list json) :
  answers_of payload = Ok (JArr items) ->
  Forall (fun a => entry_ref a <> Ok (JStr "name_field_ref")) items ->
  JsonProcessingService._extract_user_name payload = JStr "User".
Proof.
  intros Hans Hall. rewrite (extract_user_name_unfold payload items Hans).
  destruct (JsonProcessingService.user_name_loop items) as [v|e] eqn:Hl; [|reflexivity].
  now apply (user_name_loop_default items).
Qed.

(** X13. The user name is the text of the first answer entry whose field
    reference is the name field, and "User" if that entry has no text; the
    candidates after it are not looked at. *)
Theorem user_name_is_first_name_entry
    (payload : json) (before after : list json) (fields : list (string * json)) :
  answers_of payload = Ok (JArr (before ++ JObj fields :: after)) ->
  Forall (fun a => exists r, entry_ref a = Ok r /\ r <> JStr "name_field_ref") before ->
  entry_ref (JObj fields) = Ok (JStr "name_field_ref") ->
  JsonProcessingService._extract_user_name payload =
  match alist_lookup "text" fields with Some v => v | None => JStr "User" end.
Proof.
  intros Hans Hbefore Hentry.
  rewrite (extract_user_name_unfold payload _ Hans).
  now rewrite (user_name_loop_first before after (JObj fields) Hbefore Hentry).
Qed.

(** ** The recipient address *)

Section Recipient.
Import WebhookController.

Lemma extract_email_unfold (fields form : list (string * json)) (items : list json) :
  alist_lookup "form_response" fields = Some (JObj form) ->
  alist_lookup "answers" form = Some (JArr items) ->
  _extract_email_from_payload (JObj fields) =
  match email_loop items with Ok v => v | Raise _ => JNull end.
Proof.
  intros Hf Ha. unfold _extract_email_from_payload. cbn.
  rewrite Hf. cbn. rewrite Ha. reflexivity.
Qed.

Lemma email_loop_skip (answer : list (string * json)) (rest : list json) :
  alist_lookup "type" answer <> Some (JStr "email") ->
  email_loop (JObj answer :: rest) = email_loop rest.
Proof.
  intros Hty. cbn [email_loop]. cbn.
  destruct (alist_lookup "type" answer) as [ty|] eqn:E; cbn; [|reflexivity].
  destruct (py_eqb ty (JStr "email")) eqn:Ee; cbn; [|reflexivity].
  apply py_eqb_str in Ee. congruence.
Qed.

End Recipient.

(** X14. A payload that is not an object yields no recipient address: the
    membership test or the subscript fails, and the failure is answered
    with [None]. *)
Theorem no_email_in_non_object_payload (payload : json) :
  is_object payload = false ->
  WebhookController._extract_email_from_payload payload = JNull.
Proof.
  intros H. destruct payload as [| b | q | s | l | l]; try discriminate H;
    try reflexivity; unfold WebhookController._extract_email_from_payload; cbn.
  - now destruct (contains "form_response" s).
  - now destruct (existsb _ l).
Qed.

(** X15. The recipient address is the [email] value of the first answer
    entry of type "email" whose field carries the designated reference,
    and [None] if that entry has no [email]; entries of another type
    before it are passed over. *)
Theorem email_is_first_email_entry
    (fields form entry field : list (string * json)) (before after : list json) :
  alist_lookup "form_response" fields = Some (JObj form) ->
  alist_lookup "answers" form = Some (JArr (before ++ JObj entry :: after)) ->
  Forall (fun a => exists items, a = JObj items /\
                   alist_lookup "type" items <> Some (JStr "email")) before ->
  alist_lookup "type" entry = Some (JStr "email") ->
  alist_lookup "field" entry = Some (JObj field) ->
  alist_lookup "ref" field = Some (JStr WebhookController.email_ref) ->
  WebhookController._extract_email_from_payload (JObj fields) =
  match alist_lookup "email" entry with Some v => v | None => JNull end.
Proof.
  intros Hf Ha Hbefore Hty Hfield Href.
  rewrite (extract_email_unfold fields form _ Hf Ha). clear Ha.
  induction Hbefore as [|a before (items & -> & Hne) _ IH].
  - cbn [app WebhookController.email_loop]. cbn.
    rewrite Hty. cbn. rewrite Hfield. cbn. rewrite Href. cbn. reflexivity.
  - rewrite <- app_comm_cons, email_loop_skip by exact Hne. exact IH.
Qed.

(** ** The email service *)

Section Mailer.
Import EmailService.

Variable rt : runtime.
Variable self : t.
Variables (to_email : json) (subject body pdf_path : string).
Variables (from_email html_content : option string).

Let outcome := send_email_with_pdf rt self to_email subject body pdf_path
                 from_email html_content.

Lemma send_cases :
  (success (fst outcome) = false /\ snd outcome = []) \/
  (exists file_data m,
     str_truthy (api_key self) = true /\
     path_exists rt pdf_path = true /\
     read_bytes rt pdf_path = Ok file_data /\
     to_emails m = to_email /\
     EmailService.subject m = subject /\
     plain_text_content m = body /\
     attachment_content m = b64encode rt file_data /\
     attachment_name m = basename rt pdf_path /\
     snd outcome = [m] /\
     success (fst outcome) = negb (raised (sg_send self m))).
Proof.
  unfold outcome, send_email_with_pdf.
  destruct (str_truthy (api_key self)) eqn:Hkey; cbn [negb]; [|left; now split].
  destruct (path_exists rt pdf_path) eqn:Hex; cbn [negb]; [|left; now split].
  destruct (read_bytes rt pdf_path) as [file_data|e] eqn:Hread; [|left; now split].
  right. exists file_data.
  match goal with |- context [sg_send self ?msg] => exists msg end.
  repeat (split; [reflexivity|]).
  destruct (sg_send self _); now split.
Qed.

End Mailer.

Lemma provider_sees_given_recipient
    (rt : runtime) (self : EmailService.t)
    (to_email : json) (subject body pdf_path : string)
    (from_email html_content : option string) (m : EmailService.mail) :
  In m (snd (EmailService.send_email_with_pdf rt self to_email subject body
               pdf_path from_email html_content)) ->
  EmailService.to_emails m = to_email.
Proof.
  destruct (send_cases rt self to_email subject body pdf_path from_email html_content)
    as [[_ Hsent] | (file_data & m' & _ & _ & _ & H1 & _ & _ & _ & _ & Hsent & _)];
    rewrite Hsent; intros Hin.
  - destruct Hin.
  - now destruct Hin as [<- | []].
Qed.

(** X16. The email operation hands at most one message to the mail provider,
    and reports success exactly when it handed one over and the provider
    accepted it. *)
Theorem email_success_iff_provider_accepted
    (rt : runtime) (self : EmailService.t)
    (to_email : json) (subject body pdf_path : string)
    (from_email html_content : option string) :
  (length (snd (EmailService.send_email_with_pdf rt self to_email subject body
                  pdf_path from_email html_content)) <= 1)%nat /\
  (EmailService.success
     (fst (EmailService.send_email_with_pdf rt self to_email subject body
             pdf_path from_email html_content)) = true <->
   exists m code,
     snd (EmailService.send_email_with_pdf rt self to_email subject body
            pdf_path from_email html_content) = [m] /\
     EmailService.sg_send self m = Ok code).
Proof.
  destruct (send_cases rt self to_email subject body pdf_path from_email html_content)
    as [[Hs Hsent] | (file_data & m & _ & _ & _ & _ & _ & _ & _ & _ & Hsent & Hs)].
  - rewrite Hs, Hsent. split; [cbn; lia|].
    split; [discriminate|]. intros (m & code & [=] & _).
  - rewrite Hs, Hsent. split; [cbn; lia|]. split.
    + intros Hacc. destruct (EmailService.sg_send self m) as [code|e] eqn:Hsend;
        [eauto|discriminate].
    + intros (m' & code & [= <-] & Hcode). now rewrite Hcode.
Qed.

(** X17. A message reaches the mail provider only if an API key is
    configured and the document exists and can be read; the message then
    carries the recipient, subject and body it was given and the encoded
    bytes of that document under its base name. *)
Theorem provider_only_sees_readable_documents
    (rt : runtime) (self : EmailService.t)
    (to_email : json) (subject body pdf_path : string)
    (from_email html_content : option string) (m : EmailService.mail) :
  In m (snd (EmailService.send_email_with_pdf rt self to_email subject body
               pdf_path from_email html_content)) ->
  EmailService.str_truthy (EmailService.api_key self) = true /\
  path_exists rt pdf_path = true /\
  (exists file_data,
     read_bytes rt pdf_path = Ok file_data /\
     EmailService.attachment_content m = b64encode rt file_data) /\
  EmailService.attachment_name m = basename rt pdf_path /\
  EmailService.to_emails m = to_email /\
  EmailService.subject m = subject /\
  EmailService.plain_text_content m = body.
Proof.
  destruct (send_cases rt self to_email subject body pdf_path from_email html_content)
    as [[_ Hsent] | (file_data & m' & Hk & He & Hr & H1 & H2 & H3 & H4 & H5 & Hsent & _)];
    rewrite Hsent; intros Hin.
  - destruct Hin.
  - destruct Hin as [<- | []]. eauto 10.
Qed.

(** ** The webhook entry points, continued *)

Section Webhook.
Import WebhookController.

Variable rt : runtime.
Variable self : t.
Variable payload : json.

Let processed :=
  JsonProcessingService.process_json rt (json_processing_service self)
    (json_dumps rt payload).

Lemma webhook_to_pdf_cases :
  (pdf_success (process_webhook_to_pdf rt self payload) = false /\
   pdf_status (process_webhook_to_pdf rt self payload) = 500%Z /\
   pdf_path (process_webhook_to_pdf rt self payload) = None) \/
  (exists filename d,
     save_payload self payload = Ok filename /\
     JsonProcessingService.success processed = true /\
     JsonProcessingService.data processed = Some d /\
     HealthScoreOrchestrationService.pdf_report_path d <> "" /\
     path_exists rt (HealthScoreOrchestrationService.pdf_report_path d) = true /\
     process_webhook_to_pdf rt self payload =
       PdfResponse true 200 "Webhook processed and PDF generated successfully"
         (Some filename) (Some (HealthScoreOrchestrationService.pdf_report_path d)) None).
Proof.
  unfold process_webhook_to_pdf. fold processed.
  destruct (save_payload self payload) as [filename|e]; [|left; auto].
  destruct (JsonProcessingService.success processed) eqn:Hs; [|left; auto].
  destruct (JsonProcessingService.data processed) as [d|] eqn:Hd; [|left; auto].
  cbn [py_truthy].
  destruct (String.eqb_spec (HealthScoreOrchestrationService.pdf_report_path d) "")
    as [E|Hne]; cbn [negb andb]; [left; auto|].
  destruct (path_exists rt _) eqn:Hex; [|left; auto].
  right. exists filename, d. auto 10.
Qed.

Lemma webhook_email_cases (to_email : json) :
  snd (process_webhook_and_email rt self payload to_email) = [] \/
  (exists d,
     JsonProcessingService.success processed = true /\
     JsonProcessingService.data processed = Some d /\
     path_exists rt (HealthScoreOrchestrationService.pdf_report_path d) = true /\
     let recipient := if py_truthy to_email then to_email
                      else _extract_email_from_payload payload in
     py_truthy recipient = true /\
     exists subject body,
       snd (process_webhook_and_email rt self payload to_email) =
       snd (EmailService.send_email_with_pdf rt (email_service self) recipient
              subject body (HealthScoreOrchestrationService.pdf_report_path d)
              None None)).
Proof.
  unfold process_webhook_and_email. fold processed.
  destruct (save_payload self payload) as [filename|e]; [|left; auto].
  destruct (JsonProcessingService.success processed) eqn:Hs; [|left; auto].
  destruct (JsonProcessingService.data processed) as [d|] eqn:Hd; [|left; auto].
  destruct (py_truthy (if py_truthy to_email then to_email
                       else _extract_email_from_payload payload)) eqn:Hr;
    cbn [negb]; [|left; auto].
  destruct (py_truthy (JStr _)); cbn [andb]; [|left; auto].
  destruct (path_exists rt _) eqn:Hex; [|left; auto].
  right. exists d. do 3 (split; [assumption || reflexivity|]).
  cbn zeta. split; [reflexivity|].
  match goal with
  | |- context [EmailService.send_email_with_pdf _ _ _ ?sub ?bod _ _ _] =>
      exists sub, bod
  end.
  now destruct (EmailService.send_email_with_pdf _ _ _ _ _ _ _ _).
Qed.

End Webhook.

(** X18. The webhook-to-PDF entry point reports success only for a saved
    payload whose processing succeeded and whose document is on disk, and
    then returns the path of that document; in every other case it answers
    with status 500 and no path. *)
Theorem webhook_to_pdf_success_means_pdf_on_disk
    (rt : runtime) (self : WebhookController.t) (payload : json) :
  (WebhookController.pdf_success
     (WebhookController.process_webhook_to_pdf rt self payload) = true ->
   exists path,
     WebhookController.pdf_path
       (WebhookController.process_webhook_to_pdf rt self payload) = Some path /\
     path_exists rt path = true /\
     option_map HealthScoreOrchestrationService.pdf_report_path
       (JsonProcessingService.data
          (JsonProcessingService.process_json rt
             (WebhookController.json_processing_service self) (json_dumps rt payload)))
       = Some path) /\
  (WebhookController.pdf_success
     (WebhookController.process_webhook_to_pdf rt self payload) = false ->
   WebhookController.pdf_status
     (WebhookController.process_webhook_to_pdf rt self payload) = 500%Z /\
   WebhookController.pdf_path
     (WebhookController.process_webhook_to_pdf rt self payload) = None).
Proof.
  destruct (webhook_to_pdf_cases rt self payload)
    as [(Hs & Hst & Hp) | (filename & d & _ & _ & Hd & _ & Hex & Hr)].
  - rewrite Hs, Hst, Hp. split; [discriminate|auto].
  - rewrite Hr. cbn. split; [|discriminate].
    intros _. exists (HealthScoreOrchestrationService.pdf_report_path d).
    rewrite Hd. auto.
Qed.

(** X19. The webhook-and-email entry point reaches the mail provider only
    after a successful processing whose document is on disk, and any
    message it sends goes to the address given with the request when there
    is one, else to the address found in the payload. *)
Theorem webhook_mail_needs_pdf_and_recipient
    (rt : runtime) (self : WebhookController.t) (payload to_email : json)
    (m : EmailService.mail) :
  In m (snd (WebhookController.process_webhook_and_email rt self payload to_email)) ->
  (exists d,
     JsonProcessingService.data
       (JsonProcessingService.process_json rt
          (WebhookController.json_processing_service self) (json_dumps rt payload))
       = Some d /\
     path_exists rt (HealthScoreOrchestrationService.pdf_report_path d) = true) /\
  EmailService.to_emails m =
    (if py_truthy to_email then to_email
     else WebhookController._extract_email_from_payload payload) /\
  py_truthy (EmailService.to_emails m) = true.
Proof.
  intros Hin.
  destruct (webhook_email_cases rt self payload to_email)
    as [Hnone | (d & _ & Hd & Hex & Hrec & subject & body & Hsent)].
  - rewrite Hnone in Hin. destruct Hin.
  - rewrite Hsent in Hin.
    apply provider_sees_given_recipient in Hin.
    cbn zeta in Hrec. rewrite Hin. eauto.
Qed.

Section WebhookEmailSuccess.
Import WebhookController.

Lemma webhook_email_success_sent (rt : runtime) (self : t) (payload to_email : json) :
  success (fst (process_webhook_and_email rt self payload to_email)) = true ->
  exists recipient subject body path,
    EmailService.success
      (fst (EmailService.send_email_with_pdf rt (email_service self) recipient
              subject body path None None)) = true /\
    snd (process_webhook_and_email rt self payload to_email) =
    snd (EmailService.send_email_with_pdf rt (email_service self) recipient
           subject body path None None).
Proof.
  unfold process_webhook_and_email.
  destruct (save_payload self payload) as [filename|e]; [|discriminate].
  destruct (JsonProcessingService.success _); [|discriminate].
  destruct (JsonProcessingService.data _) as [d|]; [|discriminate].
  destruct (negb (py_truthy _)); [discriminate|].
  destruct (py_truthy (JStr _) && path_exists rt _); [|discriminate].
  match goal with
  | |- context [EmailService.send_email_with_pdf _ _ ?rcp ?sub ?bod ?pth _ _] =>
      exists rcp, sub, bod, pth
  end.
  destruct (EmailService.send_email_with_pdf _ _ _ _ _ _ _ _) as [er sent].
  cbn in *. auto.
Qed.

End WebhookEmailSuccess.

(** X20. The webhook-and-email entry point reports success only if exactly
    one message was handed to the mail provider and the provider accepted
    it. *)
Theorem webhook_email_success_means_accepted
    (rt : runtime) (self : WebhookController.t) (payload to_email : json) :
  WebhookController.success
    (fst (WebhookController.process_webhook_and_email rt self payload to_email)) = true ->
  exists m code,
    snd (WebhookController.process_webhook_and_email rt self payload to_email) = [m] /\
    EmailService.sg_send (WebhookController.email_service self) m = Ok code.
Proof.
  intros Hs.
  destruct (webhook_email_success_sent rt self payload to_email Hs)
    as (recipient & subject & body & path & Hsent & ->).
  destruct (send_cases rt (WebhookController.email_service self) recipient subject body
              path None None)
    as [[Hf _] | (file_data & m & _ & _ & _ & _ & _ & _ & _ & _ & Hm & Hacc)].
  - congruence.
  - rewrite Hacc in Hsent. rewrite Hm.
    destruct (EmailService.sg_send (WebhookController.email_service self) m)
      as [code|e] eqn:Hsend; [|discriminate].
    exists m, code. split; [reflexivity|exact Hsend].
Qed.

(** ** Listing and processing stored files *)

Section Listing.
Import FileController.

(** [a] is not older than [b]. *)
Let newer_or_same (a b : file_info) : Prop := created_before a b = false.

Lemma created_before_asym (a b : file_info) :
  created_before a b = true -> created_before b a = false.
Proof.
  unfold created_before.
  destruct (String_as_OT.compare_spec (createdAt a) (createdAt b)) as [E|L|G];
    try discriminate.
  intros _.
  destruct (String_as_OT.compare_spec (createdAt b) (createdAt a)) as [E'|L'|G'];
    try reflexivity.
  exfalso. apply (StrictOrder_Irreflexive (createdAt a)).
  now transitivity (createdAt b).
Qed.

Lemma newer_or_same_trans (a b c : file_info) :
  newer_or_same a b -> newer_or_same b c -> newer_or_same a c.
Proof.
  unfold newer_or_same, created_before.
  destruct (String_as_OT.compare_spec (createdAt a) (createdAt b)) as [E|L|G];
    try discriminate; intros _;
    destruct (String_as_OT.compare_spec (createdAt b) (createdAt c)) as [E'|L'|G'];
    try discriminate; intros _;
    destruct (String_as_OT.compare_spec (createdAt a) (createdAt c)) as [E''|L''|G''];
    try reflexivity; exfalso.
  - rewrite E, E' in L''. now apply (StrictOrder_Irreflexive (createdAt c)).
  - rewrite E in L''. apply (StrictOrder_Irreflexive (createdAt b)).
    now transitivity (createdAt c).
  - rewrite <- E' in L''. apply (StrictOrder_Irreflexive (createdAt a)).
    now transitivity (createdAt b).
  - apply (StrictOrder_Irreflexive (createdAt a)).
    transitivity (createdAt c); [assumption|]. now transitivity (createdAt b).
Qed.

Lemma insert_perm (x : file_info) (l : list file_info) :
  Permutation (x :: l) (insert_newest_first x l).
Proof.
  induction l as [|y l IH]; cbn; [reflexivity|].
  destruct (created_before x y); [|reflexivity].
  rewrite perm_swap. now constructor.
Qed.

Lemma sort_perm (l : list file_info) : Permutation l (sort_newest_first l).
Proof.
  induction l as [|x l IH]; cbn; [constructor|].
  rewrite <- insert_perm. now constructor.
Qed.

Lemma insert_sorted (x : file_info) (l : list file_info) :
  StronglySorted newer_or_same l ->
  StronglySorted newer_or_same (insert_newest_first x l).
Proof.
  induction 1 as [|y l Hs IH Hy]; cbn.
  - repeat constructor.
  - destruct (created_before x y) eqn:E.
    + constructor; [exact IH|].
      rewrite <- insert_perm. constructor; [|exact Hy].
      now apply created_before_asym.
    + constructor; [now constructor|].
      constructor; [exact E|].
      eapply List.Forall_impl; [|exact Hy].
      intros z Hz. now apply (newer_or_same_trans x y z).
Qed.

Lemma sort_sorted (l : list file_info) :
  StronglySorted newer_or_same (sort_newest_first l).
Proof.
  induction l as [|x l IH]; cbn; [constructor|]. now apply insert_sorted.
Qed.

Lemma list_loop_names (st : storage) (names : list string) :
  forall acc files : list file_info,
  list_loop st names acc = Ok files ->
  map name files = map name acc ++ List.filter (fun n => endswith n ".json") names.
Proof.
  induction names as [|n names IH]; intros acc files; cbn [list_loop List.filter].
  - intros [= <-]. now rewrite app_nil_r.
  - destruct (endswith n ".json").
    + intros H. apply bind_Ok_inv in H as (info & _ & H).
      rewrite (IH _ _ H), map_app, <- app_assoc. reflexivity.
    + apply IH.
Qed.

End Listing.

(** X21. When the directory can be listed and every JSON file stat'ed, the
    listing reports exactly the names of the directory that end in ".json",
    each once per occurrence, ordered by creation time, newest first. *)
Theorem list_files_sorted_json_names (self : FileController.t) (names : list string) :
  FileController.listdir (FileController.json_storage self) = Ok names ->
  FileController.list_success (FileController.list_files self) = true ->
  StronglySorted (fun a b => FileController.created_before a b = false)
    (FileController.files (FileController.list_files self)) /\
  Permutation
    (map FileController.name (FileController.files (FileController.list_files self)))
    (List.filter (fun n => FileController.endswith n ".json") names).
Proof.
  intros Hdir. unfold FileController.list_files. rewrite Hdir. cbn.
  destruct (FileController.list_loop _ names []) as [files|e] eqn:Hloop; [|discriminate].
  intros _. cbn. split; [apply sort_sorted|].
  rewrite <- (sort_perm files).
  now rewrite (list_loop_names _ _ _ _ Hloop).
Qed.

Section ProcessFile.
Import FileController.

Variable rt : runtime.
Variable self : t.
Variables filename output_format : string.

Let stored := basename rt filename.
Let response := process_file rt self filename output_format.

Lemma process_file_cases :
  (success response = false /\ pdfPath response = None /\
   ~ exists json_content,
       exists_in (json_storage self) stored = true /\
       read_text (json_storage self) stored = Ok json_content /\
       JsonProcessingService.success
         (JsonProcessingService.process_json rt (json_processing_service self)
            json_content) = true) \/
  (exists json_content d,
     exists_in (json_storage self) stored = true /\
     read_text (json_storage self) stored = Ok json_content /\
     JsonProcessingService.success
       (JsonProcessingService.process_json rt (json_processing_service self)
          json_content) = true /\
     JsonProcessingService.data
       (JsonProcessingService.process_json rt (json_processing_service self)
          json_content) = Some d /\
     success response = true /\
     status response = 200%Z /\
     data response = Some d /\
     pdfPath response =
       (if String.eqb output_format "html" then None
        else Some (HealthScoreOrchestrationService.pdf_report_path d))).
Proof.
  unfold response, process_file. fold stored.
  destruct (exists_in (json_storage self) stored) eqn:Hex; cbn [negb].
  2:{ left. repeat split. intros (c & [=] & _). }
  destruct (read_text (json_storage self) stored) as [json_content|e] eqn:Hread.
  2:{ left. repeat split. intros (c & _ & [=] & _). }
  destruct (process_json_cases rt (json_processing_service self) json_content)
    as [(payload & ps & chart & pdf & _ & _ & _ & _ & Hr) | (Hs & Hd & _)].
  - right. exists json_content, (HealthScoreOrchestrationService.ResultData chart pdf
                                   (JsonProcessingService._extract_user_name payload) ps).
    rewrite Hr. cbn.
    destruct (String.eqb output_format "html"); cbn; auto 10.
  - left. rewrite Hs, Hd. cbn. repeat split.
    intros (c & _ & [= <-] & Hc). congruence.
Qed.

End ProcessFile.

(** X22. [process_file] reports success exactly when the file, looked up
    under the base name of the requested name, exists, can be read, and is
    processed successfully; the response then carries the path of the
    generated document, except for the "html" format, which carries none. *)
Theorem process_file_success_iff
    (rt : runtime) (self : FileController.t) (filename output_format : string) :
  (FileController.success (FileController.process_file rt self filename output_format)
     = true <->
   exists json_content,
     FileController.exists_in (FileController.json_storage self) (basename rt filename)
       = true /\
     FileController.read_text (FileController.json_storage self) (basename rt filename)
       = Ok json_content /\
     JsonProcessingService.success
       (JsonProcessingService.process_json rt
          (FileController.json_processing_service self) json_content) = true) /\
  (FileController.success (FileController.process_file rt self filename output_format)
     = true ->
   exists d,
     FileController.data (FileController.process_file rt self filename output_format)
       = Some d /\
     FileController.pdfPath (FileController.process_file rt self filename output_format)
       = (if String.eqb output_format "html" then None
          else Some (HealthScoreOrchestrationService.pdf_report_path d))).
Proof.
  destruct (process_file_cases rt self filename output_format)
    as [(Hs & _ & Hno) | (c & d & H1 & H2 & H3 & H4 & Hs & _ & Hd & Hp)].
  - rewrite Hs. split; [|discriminate].
    split; [discriminate|]. intros H. exfalso. exact (Hno H).
  - rewrite Hs. split.
    + split; [intros _; eauto|reflexivity].
    + intros _. exists d. auto.
Qed.

(** ** The further properties at concrete inputs *)

Lemma one_bad_entry_empties_the_map_witness :
  answers_of one_bad_entry_payload
    = Ok (JArr [ choice_entry waist_circumference_id "Low risk"; JStr "oops" ]) /\
  HealthScoreService._extract_answers (example_rt (Ok JNull)) one_bad_entry_payload = [].
Proof.
  split; [reflexivity|].
  apply (one_bad_entry_empties_the_map (example_rt (Ok JNull)) one_bad_entry_payload
           [ choice_entry waist_circumference_id "Low risk"; JStr "oops" ] (JStr "oops")).
  - reflexivity.
  - right. left. reflexivity.
  - reflexivity.
Defined.

Lemma last_entry_for_a_field_wins_witness :
  entry_ref (choice_entry waist_circumference_id "Low risk")
    = Ok (JStr waist_circumference_id) /\
  dict_lookup
    (HealthScoreService._extract_answers (example_rt (Ok JNull)) answered_twice_payload)
    (JStr waist_circumference_id) = Some (JStr "Low risk").
Proof.
  split; [reflexivity|].
  destruct (last_entry_for_a_field_wins (example_rt (Ok JNull)) answered_twice_payload
              [ choice_entry waist_circumference_id "High risk" ] []
              (choice_entry waist_circumference_id "Low risk")
              waist_circumference_id (JStr "Low risk")
              [ (JStr waist_circumference_id, JStr "Low risk") ]
              eq_refl eq_refl eq_refl eq_refl (List.Forall_nil _)) as [He Hl].
  rewrite He. exact Hl.
Defined.


Lemma skipped_question_leaves_the_score_witness :
  HealthScoreService.question_score example_lookups two_answers waist_hip_ratio_id
    = Ok None /\
  HealthScoreService._calculate_pillar_score example_lookups two_answers
    ([waist_circumference_id] ++ waist_hip_ratio_id :: []) =
  HealthScoreService._calculate_pillar_score example_lookups two_answers
    ([waist_circumference_id] ++ []).
Proof.
  split; [reflexivity|].
  apply (skipped_question_leaves_the_score example_lookups two_answers
           [waist_circumference_id] [] waist_hip_ratio_id).
  reflexivity.
Defined.

Lemma first_fuzzy_key_contributes_witness :
  fuzzy_hit "medium low" "Low" = true /\
  HealthScoreService.question_score low_medium_lookups medium_low_answers
    waist_circumference_id = Ok (Some 1%Q).
Proof.
  split; [reflexivity|].
  apply (first_fuzzy_key_contributes low_medium_lookups medium_low_answers
           waist_circumference_id "medium low" "Low" 1%Q [] [("Low-Medium", 2%Q)]);
    try reflexivity.
  - constructor.
  - intros H; discriminate H.
Defined.

Lemma example_keys_not_empty :
  Forall (fun kv : string * Q => fst kv <> "") [("Low risk", 4%Q); ("High risk", 1%Q)].
Proof.
  repeat (apply List.Forall_cons; [intros H; discriminate H|]). apply List.Forall_nil.
Qed.

Lemma skipped_iff_no_match_witness :
  Forall (fun kv : string * Q => fst kv <> "") [("Low risk", 4%Q); ("High risk", 1%Q)] /\
  (HealthScoreService.question_score example_lookups two_answers waist_circumference_id
     = Ok None <->
   alist_lookup "Low risk" [("Low risk", 4%Q); ("High risk", 1%Q)] = None /\
   Forall (fun key => fuzzy_hit "Low risk" key = false)
     (map fst [("Low risk", 4%Q); ("High risk", 1%Q)])).
Proof.
  split; [exact example_keys_not_empty|].
  exact (skipped_iff_no_match example_lookups two_answers waist_circumference_id
           "Low risk" [("Low risk", 4%Q); ("High risk", 1%Q)]
           eq_refl eq_refl example_keys_not_empty).
Defined.

Lemma answer_matches_first_key_up_to_case_witness :
  lower "low risk" = lower "Low risk" /\
  HealthScoreService.question_score example_lookups lower_case_answers
    waist_circumference_id = Ok (Some 4%Q).
Proof.
  split; [reflexivity|].
  exact (answer_matches_first_key_up_to_case example_lookups lower_case_answers
           waist_circumference_id "low risk" "Low risk" 4%Q [("High risk", 1%Q)]
           eq_refl eq_refl eq_refl eq_refl).
Defined.

Lemma normalize_score_monotone_witness :
  (1 <= 2)%Q /\
  (HealthScoreService._normalize_score 1 <= HealthScoreService._normalize_score 2)%Q.
Proof.
  assert (H : (1 <= 2)%Q) by (unfold Qle; cbn; lia).
  split; [exact H|]. exact (normalize_score_monotone 1 2 H).
Defined.

Lemma processed_scores_well_scored_witness :
  exists d,
    JsonProcessingService.data
      (JsonProcessingService.process_json (example_rt (Ok two_answers_payload))
         working_service "{}") = Some d /\
    well_scored (HealthScoreOrchestrationService.pillar_scores d).
Proof.
  eexists. split; [vm_compute; reflexivity|].
  apply (processed_scores_well_scored (example_rt (Ok two_answers_payload))
           working_service "{}").
  - exact example_lookups_in_range.
  - vm_compute; reflexivity.
Defined.

Lemma two_answers_have_no_name :
  Forall (fun a => entry_ref a <> Ok (JStr "name_field_ref"))
    [ choice_entry waist_circumference_id "Low risk";
      choice_entry blood_pressure_sys_id "Normal" ].
Proof.
  repeat (apply List.Forall_cons; [intros H; discriminate H|]). apply List.Forall_nil.
Qed.

Lemma user_name_defaults_to_User_witness :
  answers_of two_answers_payload
    = Ok (JArr [ choice_entry waist_circumference_id "Low risk";
                 choice_entry blood_pressure_sys_id "Normal" ]) /\
  JsonProcessingService._extract_user_name two_answers_payload = JStr "User".
Proof.
  split; [reflexivity|].
  exact (user_name_defaults_to_User two_answers_payload _ eq_refl two_answers_have_no_name).
Defined.

Lemma waist_entry_is_no_name :
  Forall (fun a => exists r, entry_ref a = Ok r /\ r <> JStr "name_field_ref")
    [ choice_entry waist_circumference_id "Low risk" ].
Proof.
  apply List.Forall_cons; [|apply List.Forall_nil].
  exists (JStr waist_circumference_id). split; [reflexivity|intros H; discriminate H].
Qed.

Lemma user_name_is_first_name_entry_witness :
  entry_ref (JObj (text_entry "name_field_ref" "Ada")) = Ok (JStr "name_field_ref") /\
  JsonProcessingService._extract_user_name named_payload = JStr "Ada".
Proof.
  split; [reflexivity|].
  exact (user_name_is_first_name_entry named_payload
           [ choice_entry waist_circumference_id "Low risk" ]
           [ JObj (text_entry "name_field_ref" "Grace") ]
           (text_entry "name_field_ref" "Ada")
           eq_refl waist_entry_is_no_name eq_refl).
Defined.

Lemma no_email_in_non_object_payload_witness :
  is_object (JStr "form_response") = false /\
  WebhookController._extract_email_from_payload (JStr "form_response") = JNull.
Proof.
  split; [reflexivity|].
  exact (no_email_in_non_object_payload (JStr "form_response") eq_refl).
Defined.

Lemma waist_entry_is_no_email :
  Forall (fun a => exists items, a = JObj items /\
                   alist_lookup "type" items <> Some (JStr "email"))
    [ JObj waist_entry ].
Proof.
  apply List.Forall_cons; [|apply List.Forall_nil].
  exists waist_entry. split; [reflexivity|intros H; discriminate H].
Qed.

Lemma email_is_first_email_entry_witness :
  alist_lookup "type" email_entry = Some (JStr "email") /\
  WebhookController._extract_email_from_payload
    (JObj [ ("form_response",
             JObj [ ("answers", JArr ([ JObj waist_entry ] ++ JObj email_entry :: [])) ]) ])
  = JStr "ada@example.org".
Proof.
  split; [reflexivity|].
  exact (email_is_first_email_entry
           [ ("form_response",
              JObj [ ("answers", JArr ([ JObj waist_entry ] ++ JObj email_entry :: [])) ]) ]
           [ ("answers", JArr ([ JObj waist_entry ] ++ JObj email_entry :: [])) ]
           email_entry [("ref", JStr WebhookController.email_ref)]
           [ JObj waist_entry ] []
           eq_refl eq_refl waist_entry_is_no_email eq_refl eq_refl eq_refl).
Defined.

Lemma provider_only_sees_readable_documents_witness :
  exists m,
    In m (snd (EmailService.send_email_with_pdf disk_rt accepting_mailer
                 (JStr "ada@example.org") "Your Health Score Report" "Hello"
                 "reports/report.pdf" None None)) /\
    path_exists disk_rt "reports/report.pdf" = true /\
    EmailService.to_emails m = JStr "ada@example.org".
Proof.
  eexists. split; [left; reflexivity|].
  match goal with
  | |- _ /\ EmailService.to_emails ?m = _ =>
      pose proof (provider_only_sees_readable_documents disk_rt accepting_mailer
                    (JStr "ada@example.org") "Your Health Score Report" "Hello"
                    "reports/report.pdf" None None m (or_introl eq_refl))
        as (_ & Hex & _ & _ & Hto & _)
  end.
  split; [exact Hex|exact Hto].
Defined.

Lemma webhook_mail_needs_pdf_and_recipient_witness :
  exists m,
    In m (snd (WebhookController.process_webhook_and_email disk_rt working_controller
                 two_answers_payload (JStr "ada@example.org"))) /\
    EmailService.to_emails m = JStr "ada@example.org".
Proof.
  eexists. split; [left; vm_compute; reflexivity|].
  match goal with
  | |- EmailService.to_emails ?m = _ =>
      pose proof (webhook_mail_needs_pdf_and_recipient disk_rt working_controller
                    two_answers_payload (JStr "ada@example.org") m
                    (or_introl eq_refl)) as (_ & Hto & _)
  end.
  exact Hto.
Defined.

Lemma webhook_email_success_means_accepted_witness :
  WebhookController.success
    (fst (WebhookController.process_webhook_and_email disk_rt working_controller
            two_answers_payload (JStr "ada@example.org"))) = true /\
  exists m code,
    snd (WebhookController.process_webhook_and_email disk_rt working_controller
           two_answers_payload (JStr "ada@example.org")) = [m] /\
    EmailService.sg_send accepting_mailer m = Ok code.
Proof.
  split; [vm_compute; reflexivity|].
  apply (webhook_email_success_means_accepted disk_rt working_controller
           two_answers_payload (JStr "ada@example.org")).
  vm_compute; reflexivity.
Defined.

Lemma list_files_sorted_json_names_witness :
  FileController.listdir (FileController.json_storage example_file_controller)
    = Ok ["a.json"; "notes.txt"; "b.json"] /\
  map FileController.name (FileController.files
                             (FileController.list_files example_file_controller))
    = ["b.json"; "a.json"] /\
  Permutation
    (map FileController.name (FileController.files
                                (FileController.list_files example_file_controller)))
    (List.filter (fun n => FileController.endswith n ".json")
       ["a.json"; "notes.txt"; "b.json"]).
Proof.
  split; [reflexivity|]. split; [vm_compute; reflexivity|].
  exact (proj2 (list_files_sorted_json_names example_file_controller
                  ["a.json"; "notes.txt"; "b.json"] eq_refl eq_refl)).
Defined.
